(** * KnowledgeCrawler: the entity record pipeline

    A shallow embedding of [utils.py], [validator_module.py] and [main.py]
    of the knowledge crawler, and the properties of the record pipeline
    proved over it.

    Python values are modelled as they reach the code: a [str] is a
    sequence of Unicode code points, a [dict] decoded from JSON is a
    finite map with string keys, and the values of a JSON document form
    the inductive type [pyval]. The order of the keys of a [dict], which
    only shows in the text [json.dumps] writes, is not modelled.

    Effects are explicit: a computation reads the history of the run and
    yields the events it adds, with its value or the exception it raised.
    Exceptions are the instances of [Exception], which is what the
    handlers of the code catch. The backends (text generation, retrieval,
    the Excel reader, the file system) are parameters: every property is
    proved for all of them. *)

From Stdlib Require Import NArith ZArith List String Ascii Floats.SpecFloat.
From stdpp Require Import base option list gmap fin_maps.

Set Warnings "-register-all".

Open Scope N_scope.

(** ** Python strings *)

Module PyStr.

(** A Python [str]: the sequence of its code points. *)
Abbreviation pystr := (list N).

(** Decoder from the UTF-8 bytes of a Rocq string literal, so that the
    literals of the source can be written as they are. [pending] counts
    the continuation bytes still expected and [acc] holds the bits read
    so far. *)
Fixpoint utf8_go (pending : nat) (acc : N) (s : string) : pystr :=
  match s with
  | EmptyString => []
  | String a rest =>
      let b := N_of_ascii a in
      match pending with
      | O =>
          if b <? 128 then b :: utf8_go 0 0 rest
          else if b <? 224 then utf8_go 1 (N.land b 31) rest
          else if b <? 240 then utf8_go 2 (N.land b 15) rest
          else utf8_go 3 (N.land b 7) rest
      | S O => (N.shiftl acc 6 + N.land b 63) :: utf8_go 0 0 rest
      | S p => utf8_go p (N.shiftl acc 6 + N.land b 63) rest
      end
  end.

Definition utf8 (s : string) : pystr := utf8_go 0 0 s.

(** [str.isspace] on one code point: the characters [str.strip()] and
    [str.split()] treat as whitespace. *)
Definition isspace (c : N) : bool :=
  ((9 <=? c) && (c <=? 13)) || ((28 <=? c) && (c <=? 32))
  || (c =? 133) || (c =? 160) || (c =? 5760)
  || ((8192 <=? c) && (c <=? 8202))
  || (c =? 8232) || (c =? 8233) || (c =? 8239) || (c =? 8287)
  || (c =? 12288).

(** [s.lstrip()], [s.rstrip()] and [s.strip()]. *)
Fixpoint lstrip (s : pystr) : pystr :=
  match s with
  | c :: rest => if isspace c then lstrip rest else s
  | [] => []
  end.

Definition rstrip (s : pystr) : pystr := rev (lstrip (rev s)).

Definition strip (s : pystr) : pystr := rstrip (lstrip s).

(** [s.split()]: the maximal runs of non-whitespace characters. [cur]
    is the run being read, in reverse. *)
Fixpoint split_go (cur : pystr) (s : pystr) : list pystr :=
  match s with
  | [] => match cur with [] => [] | _ => [rev cur] end
  | c :: rest =>
      if isspace c
      then match cur with
           | [] => split_go [] rest
           | _ => rev cur :: split_go [] rest
           end
      else split_go (c :: cur) rest
  end.

Definition split (s : pystr) : list pystr := split_go [] s.

(** [sep.join(parts)] for the empty separator. *)
Definition join_empty (parts : list pystr) : pystr := concat parts.

(** [s.startswith(p)] and [s.endswith(p)]. *)
Fixpoint startswith (s p : pystr) : bool :=
  match p, s with
  | [], _ => true
  | _ :: _, [] => false
  | x :: p', y :: s' => (x =? y) && startswith s' p'
  end.

Definition endswith (s p : pystr) : bool := startswith (rev s) (rev p).

End PyStr.
Import PyStr.

Arguments utf8 : simpl never.

(** ** Python values *)

(** The values a JSON document decodes to, which are the values the
    pipeline handles. A [dict] has string keys. *)
Inductive pyval : Type :=
  | PNone
  | PBool (b : bool)
  | PInt (z : Z)
  | PFloat (f : spec_float)
  | PStr (s : pystr)
  | PList (l : list pyval)
  | PDict (d : gmap pystr pyval).

(** [isinstance(v, str)], [isinstance(v, list)], [isinstance(v, dict)]. *)
Definition is_str (v : pyval) : bool :=
  match v with PStr _ => true | _ => false end.
Definition is_list (v : pyval) : bool :=
  match v with PList _ => true | _ => false end.
Definition is_dict (v : pyval) : bool :=
  match v with PDict _ => true | _ => false end.

(** ** The Python runtime and third-party libraries

    Library functions the code calls and whose tables are not part of the
    repository. Each is a pure function of its arguments. *)

(** An instance of [Exception]: its class name and its text. *)
Record exn : Type := Exn { exn_class : string; exn_text : pystr }.

(** The outcome of a call that may raise. *)
Inductive result (A : Type) : Type :=
  | Ok (a : A)
  | Raise (e : exn).
Arguments Ok {A} a.
Arguments Raise {A} e.

Class Runtime : Type := {
  (** [pinyin.get(s, format="strip", delimiter=" ")] *)
  pinyin_get : pystr -> pystr;
  (** [s.capitalize()], which follows the Unicode case tables *)
  str_capitalize : pystr -> pystr;
  (** [str(v)] for a value that is not a string, as an f-string does *)
  py_repr : pyval -> pystr;
  (** [json.loads(s)] *)
  json_loads : pystr -> result pyval;
  (** [json.dumps(v, ensure_ascii=False, indent=indent)] *)
  json_dumps : option nat -> pyval -> pystr
}.

(** What an f-string or [str.format] substitutes for a value. *)
Definition format_value `{Runtime} (v : pyval) : pystr :=
  match v with
  | PStr s => s
  | _ => py_repr v
  end.

(** ** utils.py: identifiers and assembly *)

(** The lines the program prints, one constructor per [print] statement
    of the source, with the values substituted into it. *)
Inductive msg : Type :=
  | MsgLoading (filepath : pystr)
  | MsgFound (n : nat)
  | MsgFileNotFound (filepath : pystr)
  | MsgExcelError (e : exn)
  | MsgAssembling (entity_name : pystr)
  | MsgSaving (filepath : pystr)
  | MsgSaveSuccessful
  | MsgSaveError (e : exn)
  | MsgValidating (label : pyval)
  | MsgMissingKey (key : pystr)
  | MsgNotString (key : pystr)
  | MsgNotList (key : pystr)
  | MsgNotDict (key : pystr)
  | MsgValidationSuccessful
  | MsgBannerRule
  | MsgBannerRuleAfterBlank
  | MsgBannerStarting
  | MsgBannerFinished
  | MsgNoEntities
  | MsgFoundTotal (total processing : nat)
  | MsgProcessing (entity_name : pystr)
  | MsgStage (n : nat)
  | MsgNoInformation (entity_name : pystr)
  | MsgSchemaFailed (entity_name : pystr)
  | MsgSuccessfullyProcessed (entity_name : pystr)
  | MsgCriticalError (entity_name : pystr) (e : exn)
  | MsgSkipping.

Section Utils.
Context `{Runtime}.

(** [re.sub(r'[·-]', '', s)]: drop the middle dot (U+00B7) and the
    hyphen. *)
Definition is_special (c : N) : bool := (c =? 0xB7) || (c =? 0x2D).

Definition remove_special (s : pystr) : pystr :=
  filter (λ c, is_special c = false) s.

(** The class [[a-zA-Z0-9]]. *)
Definition is_alnum_ascii (c : N) : bool :=
  ((0x61 <=? c) && (c <=? 0x7A))
  || ((0x41 <=? c) && (c <=? 0x5A))
  || ((0x30 <=? c) && (c <=? 0x39)).

(** [re.sub(r'[^a-zA-Z0-9]', '', s)]. *)
Definition remove_non_alnum (s : pystr) : pystr :=
  filter (λ c, is_alnum_ascii c = true) s.

Definition standardize_entity_id (entity_name : pystr) : pystr :=
  let entity_name := remove_special entity_name in
  let pinyin_str := pinyin_get entity_name in
  let camel_case_id := join_empty (map str_capitalize (split pinyin_str)) in
  remove_non_alnum camel_case_id.

(** [d.get(key, default)]. *)
Definition dict_get (d : gmap pystr pyval) (key : pystr) (dflt : pyval) : pyval :=
  match d !! key with
  | Some v => v
  | None => dflt
  end.

(** [assemble_json]: the line it prints and the record it returns. *)
Definition assemble_json (entity_name source_file : pystr)
    (info : gmap pystr pyval) (relations : pyval)
    : list msg * gmap pystr pyval :=
  let aliases :=
    match info !! utf8 "aliases" with
    | Some v => v
    | None => PList []
    end in
  let assembled_obj : gmap pystr pyval :=
    <[utf8 "relations" := relations]>
    (<[utf8 "attributes" := dict_get info (utf8 "attributes") (PDict ∅)]>
    (<[utf8 "entity_type" := dict_get info (utf8 "entity_type") (PDict ∅)]>
    (<[utf8 "background_context" :=
         dict_get info (utf8 "background_context") (PStr [])]>
    (<[utf8 "description" := dict_get info (utf8 "description") (PStr [])]>
    (<[utf8 "source_file" := PStr source_file]>
    (<[utf8 "aliases" := aliases]>
    (<[utf8 "label" := PStr entity_name]>
    (<[utf8 "entity_id" := PStr (standardize_entity_id entity_name)]>
     ∅)))))))) in
  ([MsgAssembling entity_name], assembled_obj).

End Utils.

(** ** validator_module.py *)

Inductive schema_type : Type := TString | TArray | TObject.

(** A schema node: its ["type"], its ["properties"] in the order they
    are written, its ["required"] list and its ["items"]. *)
Inductive schema : Type :=
  | Schema (type : schema_type) (properties : list (pystr * schema))
      (required : list pystr) (items : option schema).

Definition schema_type_of (s : schema) : schema_type :=
  match s with Schema t _ _ _ => t end.
Definition schema_properties (s : schema) : list (pystr * schema) :=
  match s with Schema _ p _ _ => p end.
Definition schema_required (s : schema) : list pystr :=
  match s with Schema _ _ r _ => r end.
Definition schema_items (s : schema) : option schema :=
  match s with Schema _ _ _ i => i end.

Definition leaf (t : schema_type) : schema := Schema t [] [] None.

Definition MASTER_SCHEMA : schema :=
  Schema TObject
    [ (utf8 "entity_id", leaf TString);
      (utf8 "label", leaf TString);
      (utf8 "aliases", Schema TArray [] [] (Some (leaf TString)));
      (utf8 "source_file", leaf TString);
      (utf8 "description", leaf TString);
      (utf8 "background_context", leaf TString);
      (utf8 "entity_type",
        Schema TObject
          [ (utf8 "primary_type", leaf TString);
            (utf8 "sub_type", leaf TString) ]
          [ utf8 "primary_type"; utf8 "sub_type" ] None);
      (utf8 "attributes", leaf TObject);
      (utf8 "relations",
        Schema TArray [] []
          (Some (Schema TObject
            [ (utf8 "target_entity_id", leaf TString);
              (utf8 "target_label", leaf TString);
              (utf8 "relationship_type", leaf TString) ]
            [ utf8 "target_entity_id"; utf8 "target_label";
              utf8 "relationship_type" ] None))) ]
    [ utf8 "entity_id"; utf8 "label"; utf8 "aliases"; utf8 "source_file";
      utf8 "description"; utf8 "background_context"; utf8 "entity_type";
      utf8 "attributes"; utf8 "relations" ]
    None.

(** The first loop of [validate_schema]: the first required key that is
    missing, if any. *)
Fixpoint check_required (required : list pystr) (json_obj : gmap pystr pyval)
    : option msg :=
  match required with
  | [] => None
  | key :: rest =>
      match json_obj !! key with
      | None => Some (MsgMissingKey key)
      | Some _ => check_required rest json_obj
      end
  end.

(** The three tests made on one property that is present. *)
Definition check_type (key : pystr) (t : schema_type) (v : pyval) : option msg :=
  if match t with TString => negb (is_str v) | _ => false end
  then Some (MsgNotString key)
  else if match t with TArray => negb (is_list v) | _ => false end
  then Some (MsgNotList key)
  else if match t with TObject => negb (is_dict v) | _ => false end
  then Some (MsgNotDict key)
  else None.

(** The second loop: the first property whose value has the wrong type. *)
Fixpoint check_types (properties : list (pystr * schema))
    (json_obj : gmap pystr pyval) : option msg :=
  match properties with
  | [] => None
  | (key, schema_props) :: rest =>
      match json_obj !! key with
      | Some v =>
          match check_type key (schema_type_of schema_props) v with
          | Some m => Some m
          | None => check_types rest json_obj
          end
      | None => check_types rest json_obj
      end
  end.

(** [validate_schema]: the lines it prints and the boolean it returns. *)
Definition validate_schema (json_obj : gmap pystr pyval) : list msg * bool :=
  let header :=
    MsgValidating
      (match json_obj !! utf8 "label" with
       | Some v => v
       | None => PStr (utf8 "N/A")
       end) in
  match check_required (schema_required MASTER_SCHEMA) json_obj with
  | Some m => ([header; m], false)
  | None =>
      match check_types (schema_properties MASTER_SCHEMA) json_obj with
      | Some m => ([header; m], false)
      | None => ([header; MsgValidationSuccessful], true)
      end
  end.

(** ** Effects: prompts, events and collaborators *)

(** A prompt sent to the text-generation backend: the template of
    [llm_api_module] that was formatted and the values substituted for
    its placeholders. *)
Inductive prompt : Type :=
  | QUERY_AUGMENTATION_PROMPT (entity_name : pystr)
  | TYPING_AND_DEFINITION_PROMPT (entity_name raw_text : pystr)
  | ATTRIBUTE_EXTRACTION_PROMPT (entity_name : pystr) (entity_type : pyval)
  | RELATION_INFERENCE_PROMPT (entity_name all_entities_list : pystr)
  | FINAL_VALIDATION_PROMPT (entity_name json_data : pystr).

(** What a run does to the outside world, in the order it happens: the
    lines it prints and its requests to the collaborators, each with the
    answer it got. *)
Inductive event : Type :=
  | EvPrint (m : msg)
  | EvLlm (p : prompt) (r : result pystr)
  | EvCrawl (queries : pyval) (r : result pystr)
  | EvReadExcel (filepath : pystr) (r : result (list pystr))
  | EvMakedirs (dir : pystr) (r : result unit)
  | EvOpen (filepath : pystr) (r : result unit)
  | EvDump (filepath : pystr) (json_data : pyval) (r : result unit).

(** The collaborators of the pipeline. Each answers a request given the
    history of the run so far, and may raise. [get_llm_response] is the
    text-generation backend, [crawl_web] the retrieval backend of
    [crawler_module], [read_excel_column] the expression
    [pd.read_excel(filepath, header=None)[0].dropna().astype(str).tolist()],
    and the last four are the file system: [os.path.exists],
    [os.makedirs], [open(filepath, "w")] and [json.dump] into the open
    file followed by its closing. *)
Class Collaborators : Type := {
  get_llm_response : list event -> prompt -> result pystr;
  crawl_web : list event -> pyval -> result pystr;
  read_excel_column : list event -> pystr -> result (list pystr);
  path_exists : list event -> pystr -> bool;
  makedirs : list event -> pystr -> result unit;
  open_w : list event -> pystr -> result unit;
  json_dump : list event -> pyval -> pystr -> result unit
}.

(** A computation reads the history of the run and yields the events it
    adds to it, with its value or the exception it raised. *)
Definition M (A : Type) : Type := list event -> list event * result A.

Definition ret {A} (a : A) : M A := λ _, ([], Ok a).

Definition bind {A B} (m : M A) (f : A -> M B) : M B :=
  λ h,
    match m h with
    | (w1, Ok a) =>
        match f a (h ++ w1) with
        | (w2, r) => (w1 ++ w2, r)
        end
    | (w1, Raise e) => (w1, Raise e)
    end.

#[global] Instance M_ret : MRet M := @ret.
#[global] Instance M_bind : MBind M := λ A B f m, bind m f.

Definition raise {A} (e : exn) : M A := λ _, ([], Raise e).

Definition print (m : msg) : M unit := λ _, ([EvPrint m], Ok tt).

(** A pure function that prints: its lines are emitted and its value
    returned. *)
Definition say {A} (p : list msg * A) : M A := λ _, (map EvPrint p.1, Ok p.2).

(** A request to a collaborator, recorded with its answer. *)
Definition call {A} (ev : result A -> event) (oracle : list event -> result A)
    : M A :=
  λ h, let r := oracle h in ([ev r], r).

(** A question to a collaborator that leaves no trace. *)
Definition ask {A} (oracle : list event -> A) : M A := λ h, ([], Ok (oracle h)).

(** [try: m except Exception as e: handler e]. *)
Definition try_except {A} (m : M A) (handler : exn -> M A) : M A :=
  λ h,
    match m h with
    | (w1, Ok a) => (w1, Ok a)
    | (w1, Raise e) =>
        match handler e (h ++ w1) with
        | (w2, r) => (w1 ++ w2, r)
        end
    end.

(** [for x in xs: body x]. *)
Fixpoint for_each {A} (xs : list A) (body : A -> M unit) : M unit :=
  match xs with
  | [] => ret tt
  | x :: rest => _ ← body x; for_each rest body
  end.

Definition AttributeError (text : string) : exn :=
  Exn "AttributeError" (utf8 text).

(** [v.get(key, default)] on a value that may not be a [dict]. *)
Definition py_get {A} (v : pyval)
    (on_dict : gmap pystr pyval -> M A) : M A :=
  match v with
  | PDict d => on_dict d
  | _ => raise (AttributeError "object has no attribute 'get'")
  end.

(** [os.path.join(a, b)] and [os.path.basename(p)] on a POSIX system. *)
Definition path_join (a b : pystr) : pystr :=
  if startswith b (utf8 "/") then b
  else if match a with [] => true | _ => endswith a (utf8 "/") end
  then a ++ b
  else a ++ utf8 "/" ++ b.

Fixpoint basename_go (cur : pystr) (p : pystr) : pystr :=
  match p with
  | [] => rev cur
  | c :: rest => if c =? 0x2F then basename_go [] rest else basename_go (c :: cur) rest
  end.

Definition basename (p : pystr) : pystr := basename_go [] p.

(** ** utils.py: the roster loader and the storage writer *)

Section Storage.
Context `{Runtime} `{Collaborators}.

Definition is_FileNotFoundError (e : exn) : bool :=
  String.eqb (exn_class e) "FileNotFoundError".

Definition load_all_entities_from_excel (filepath : pystr) : M (list pystr) :=
  _ ← print (MsgLoading filepath);
  try_except
    (entities ← call (EvReadExcel filepath) (λ h, read_excel_column h filepath);
     _ ← print (MsgFound (length entities));
     mret entities)
    (λ e,
      if is_FileNotFoundError e
      then _ ← print (MsgFileNotFound filepath); mret []
      else _ ← print (MsgExcelError e); mret []).

Definition save_json_to_file (json_data : pyval) (output_dir : pystr) : M unit :=
  dir_exists ← ask (λ h, path_exists h output_dir);
  _ ← (if negb dir_exists
       then call (EvMakedirs output_dir) (λ h, makedirs h output_dir)
       else mret tt);
  py_get json_data (λ d,
    let entity_id := dict_get d (utf8 "entity_id") (PStr (utf8 "unknown_entity")) in
    let filepath := path_join output_dir (format_value entity_id ++ utf8 ".json") in
    _ ← print (MsgSaving filepath);
    try_except
      (_ ← call (EvOpen filepath) (λ h, open_w h filepath);
       _ ← call (EvDump filepath json_data) (λ h, json_dump h json_data filepath);
       print MsgSaveSuccessful)
      (λ e, print (MsgSaveError e))).

End Storage.

(** ** main.py *)

Definition INPUT_EXCEL_FILE : pystr := utf8 "../大渡河知识实体.xlsx".
Definition SOURCE_FILENAME : pystr := basename INPUT_EXCEL_FILE.
Definition OUTPUT_DIR : pystr := utf8 "output".

Section Main.
Context `{Runtime} `{Collaborators}.

Definition llm (p : prompt) : M pystr :=
  call (EvLlm p) (λ h, get_llm_response h p).

Definition loads (s : pystr) : M pyval := λ _, ([], json_loads s).

(** The test of the retrieval stage: [raw_text] is empty, or empty once
    stripped. *)
Definition no_information (raw_text : pystr) : bool :=
  match raw_text with
  | [] => true
  | _ => match strip raw_text with [] => true | _ => false end
  end.

Definition process_entity (entity_name : pystr) (all_entities_list : list pystr)
    : M unit :=
  _ ← print (MsgProcessing entity_name);
  (* Stage 1 *)
  _ ← print (MsgStage 1);
  let query_prompt := QUERY_AUGMENTATION_PROMPT entity_name in
  augmented_queries_str ← llm query_prompt;
  augmented_queries ← loads augmented_queries_str;
  raw_text ← call (EvCrawl augmented_queries) (λ h, crawl_web h augmented_queries);
  if no_information raw_text
  then print (MsgNoInformation entity_name)
  else
    (* Stage 2 *)
    _ ← print (MsgStage 2);
    let structuring_prompt := TYPING_AND_DEFINITION_PROMPT entity_name raw_text in
    structured_info_str ← llm structuring_prompt;
    structured_info ← loads structured_info_str;
    py_get structured_info (λ structured_info,
    let entity_type_obj := dict_get structured_info (utf8 "entity_type") (PDict ∅) in
    py_get entity_type_obj (λ entity_type_dict,
    let entity_type_name :=
      dict_get entity_type_dict (utf8 "sub_type") (PStr (utf8 "Unknown")) in
    let attribute_prompt := ATTRIBUTE_EXTRACTION_PROMPT entity_name entity_type_name in
    attributes_str ← llm attribute_prompt;
    attributes ← loads attributes_str;
    let structured_info := <[utf8 "attributes" := attributes]> structured_info in
    (* Stage 3 *)
    _ ← print (MsgStage 3);
    let relation_prompt :=
      RELATION_INFERENCE_PROMPT entity_name
        (json_dumps None (PList (map PStr all_entities_list))) in
    relations_str ← llm relation_prompt;
    relations ← loads relations_str;
    (* Stage 4 *)
    _ ← print (MsgStage 4);
    final_json_obj ← say (assemble_json entity_name SOURCE_FILENAME
                            structured_info relations);
    valid ← say (validate_schema final_json_obj);
    if negb valid
    then print (MsgSchemaFailed entity_name)
    else
      let validation_prompt :=
        FINAL_VALIDATION_PROMPT entity_name
          (json_dumps (Some 2%nat) (PDict final_json_obj)) in
      validated_json_str ← llm validation_prompt;
      validated_json ← loads validated_json_str;
      _ ← save_json_to_file validated_json OUTPUT_DIR;
      print (MsgSuccessfullyProcessed entity_name))).

(** The loop of [main] over the entities to process. *)
Definition process_all (entities_to_process all_entities_list : list pystr)
    : M unit :=
  for_each entities_to_process (λ entity_name,
    try_except (process_entity entity_name all_entities_list)
      (λ e, _ ← print (MsgCriticalError entity_name e); print MsgSkipping)).

Definition main : M unit :=
  _ ← print MsgBannerRule;
  _ ← print MsgBannerStarting;
  _ ← print MsgBannerRule;
  all_entities_list ← load_all_entities_from_excel INPUT_EXCEL_FILE;
  match all_entities_list with
  | [] => print MsgNoEntities
  | _ =>
      let entities_to_process := take 2 all_entities_list in
      _ ← print (MsgFoundTotal (length all_entities_list)
                   (length entities_to_process));
      _ ← process_all entities_to_process all_entities_list;
      _ ← print MsgBannerRuleAfterBlank;
      _ ← print MsgBannerFinished;
      print MsgBannerRule
  end.

End Main.

(** ** Observations on a run *)

(** The entities whose pipeline run began, in order: [process_entity]
    announces each run with its first [print]. *)
Fixpoint started (w : list event) : list pystr :=
  match w with
  | [] => []
  | EvPrint (MsgProcessing entity_name) :: rest => entity_name :: started rest
  | _ :: rest => started rest
  end.

Definition is_processing (ev : event) : Prop :=
  match ev with EvPrint (MsgProcessing _) => True | _ => False end.

(** A request to the retrieval backend. *)
Definition is_crawl (ev : event) : Prop :=
  match ev with EvCrawl _ _ => True | _ => False end.

(** An access to a record file: opening it or dumping into it. *)
Definition is_file_access (ev : event) : Prop :=
  match ev with EvOpen _ _ | EvDump _ _ _ => True | _ => False end.

(** What happens after the retrieval stage when it found something: a
    request to the text-generation backend other than query
    augmentation, the announcement of stage 2, 3 or 4, the assembly, the
    validation, or anything the storage writer does. *)
Definition is_later_stage (ev : event) : Prop :=
  match ev with
  | EvLlm (QUERY_AUGMENTATION_PROMPT _) _ => False
  | EvLlm _ _ => True
  | EvPrint (MsgStage n) => n ≠ 1%nat
  | EvPrint (MsgAssembling _) | EvPrint (MsgValidating _)
  | EvPrint (MsgSaving _) => True
  | EvMakedirs _ _ | EvOpen _ _ | EvDump _ _ _ => True
  | _ => False
  end.

(** The top-level type the schema declares for a property. *)
Definition has_type (t : schema_type) (v : pyval) : bool :=
  match t with
  | TString => is_str v
  | TArray => is_list v
  | TObject => is_dict v
  end.

(** [d] has the key and its value passes [test]. *)
Definition has_shape (d : gmap pystr pyval) (key : string)
    (test : pyval -> bool) : Prop :=
  ∃ v, d !! utf8 key = Some v ∧ test v = true.

(** Every event [m] adds to the history satisfies [P], whether it
    returns or raises. *)
Definition emits {A} (P : event -> Prop) (m : M A) : Prop :=
  ∀ h, Forall P (m h).1.

(** The line with which [validate_schema] ends. *)
Definition is_verdict (m : msg) : Prop :=
  match m with
  | MsgMissingKey _ | MsgNotString _ | MsgNotList _ | MsgNotDict _
  | MsgValidationSuccessful => True
  | _ => False
  end.

(** Whatever the storage writer does, it announces no pipeline run and
    asks nothing of the retrieval backend or of the roster. *)
Definition is_storage_event (ev : event) : Prop :=
  match ev with
  | EvPrint (MsgSaving _) | EvPrint MsgSaveSuccessful
  | EvPrint (MsgSaveError _)
  | EvMakedirs _ _ | EvOpen _ _ | EvDump _ _ _ => True
  | _ => False
  end.

(** A run of [m] that touched a record file returned normally and
    ended by reporting the entity as processed. *)
Definition reports_after_access (entity_name : pystr) (m : M unit) : Prop :=
  ∀ h w r, m h = (w, r) → Exists is_file_access w →
    r = Ok tt ∧ last w = Some (EvPrint (MsgSuccessfullyProcessed entity_name)).

(** A reading of the roster. *)
Definition is_read_excel (ev : event) : Prop :=
  match ev with EvReadExcel _ _ => True | _ => False end.

(** An optional key of the info mapping is absent or passes [test]. *)
Definition optional_ok (info : gmap pystr pyval) (key : string)
    (test : pyval -> bool) : Prop :=
  ∀ v, info !! utf8 key = Some v → test v = true.

(** The schema declares the top-level property [key] with type [t]. *)
Definition declared (key : pystr) (t : schema_type) : Prop :=
  ∃ s, (key, s) ∈ schema_properties MASTER_SCHEMA ∧ schema_type_of s = t.

(** A request to create the output directory. *)
Definition is_makedirs (ev : event) : Prop :=
  match ev with EvMakedirs _ _ => True | _ => False end.

(** The prompts sent to the text-generation backend, in order, with
    the stage each belongs to and the entity it is about. *)
Fixpoint llm_prompts (w : list event) : list prompt :=
  match w with
  | [] => []
  | EvLlm p _ :: rest => p :: llm_prompts rest
  | _ :: rest => llm_prompts rest
  end.

Definition prompt_stage (p : prompt) : nat :=
  match p with
  | QUERY_AUGMENTATION_PROMPT _ => 1
  | TYPING_AND_DEFINITION_PROMPT _ _ => 2
  | ATTRIBUTE_EXTRACTION_PROMPT _ _ => 3
  | RELATION_INFERENCE_PROMPT _ _ => 4
  | FINAL_VALIDATION_PROMPT _ _ => 5
  end.

Definition prompt_entity (p : prompt) : pystr :=
  match p with
  | QUERY_AUGMENTATION_PROMPT entity_name
  | TYPING_AND_DEFINITION_PROMPT entity_name _
  | ATTRIBUTE_EXTRACTION_PROMPT entity_name _
  | RELATION_INFERENCE_PROMPT entity_name _
  | FINAL_VALIDATION_PROMPT entity_name _ => entity_name
  end.

(** A request to the text-generation or to the retrieval backend. *)
Definition is_backend_request (ev : event) : Prop :=
  match ev with EvLlm _ _ | EvCrawl _ _ => True | _ => False end.

(** ** A small world to run the pipeline in *)

Module Demo.

Definition pinyin_table (c : N) : pystr :=
  if c =? 0x91CD then utf8 "zhong"
  else if c =? 0x529B then utf8 "li"
  else if c =? 0x575D then utf8 "ba"
  else if c =? 0x6C34 then utf8 "shui"
  else if c =? 0x5E93 then utf8 "ku"
  else if c =? 0x8C03 then utf8 "diao"
  else if c =? 0x5EA6 then utf8 "du"
  else [c].

Fixpoint join_space (parts : list pystr) : pystr :=
  match parts with
  | [] => []
  | [x] => x
  | x :: rest => x ++ 32 :: join_space rest
  end.

Definition upper_ascii (c : N) : N :=
  if (0x61 <=? c) && (c <=? 0x7A) then c - 32 else c.
Definition lower_ascii (c : N) : N :=
  if (0x41 <=? c) && (c <=? 0x5A) then c + 32 else c.

Definition capitalize_ascii (s : pystr) : pystr :=
  match s with
  | [] => []
  | c :: rest => upper_ascii c :: map lower_ascii rest
  end.

Definition JSONDecodeError : exn :=
  Exn "JSONDecodeError" (utf8 "Expecting value").

(** A decoder that knows two documents, and an encoder that writes
    them. *)
Definition loads_table (s : pystr) : result pyval :=
  if decide (s = utf8 "[]") then Ok (PList [])
  else if decide (s = utf8 "{}") then Ok (PDict ∅)
  else Raise JSONDecodeError.

Definition dumps_table (indent : option nat) (v : pyval) : pystr :=
  match v with
  | PList _ => utf8 "[]"
  | _ => utf8 "{}"
  end.

#[export] Instance runtime : Runtime := {|
  pinyin_get s := join_space (map pinyin_table s);
  str_capitalize := capitalize_ascii;
  py_repr _ := utf8 "None";
  json_loads := loads_table;
  json_dumps := dumps_table
|}.

Definition ConnectionError : exn :=
  Exn "ConnectionError" (utf8 "backend unreachable").
Definition PermissionError : exn :=
  Exn "PermissionError" (utf8 "Permission denied").

(** A world described by four things: the roster in the Excel file,
    the text the retrieval backend finds, the entities for which the
    text-generation backend is unreachable, and whether the output
    files can be opened. The text-generation backend answers as the
    stub of [llm_api_module] does for a prompt it does not recognise,
    with an empty document of the shape the stage expects. *)
Definition world (roster : list pystr) (raw_text : pystr)
    (unreachable : list pystr) (disk_ok : bool) : Collaborators := {|
  get_llm_response _ p :=
    match p with
    | QUERY_AUGMENTATION_PROMPT entity_name =>
        if decide (entity_name ∈ unreachable)
        then Raise ConnectionError
        else Ok (utf8 "[]")
    | RELATION_INFERENCE_PROMPT _ _ => Ok (utf8 "[]")
    | _ => Ok (utf8 "{}")
    end;
  crawl_web _ _ := Ok raw_text;
  read_excel_column _ _ := Ok roster;
  path_exists h dir :=
    existsb (λ ev, match ev with
                   | EvMakedirs d (Ok _) => bool_decide (d = dir)
                   | _ => false
                   end) h;
  makedirs _ _ := Ok tt;
  open_w _ _ := if disk_ok then Ok tt else Raise PermissionError;
  json_dump _ _ _ := Ok tt
|}.

Definition roster3 : list pystr :=
  [utf8 "重力坝"; utf8 "水库调度"; utf8 "溢洪道"].

(** A record with every top-level key, whose [entity_type] has no
    [sub_type] and whose only relation has no [target_entity_id]. *)
Definition record_without_sub_type : gmap pystr pyval :=
  list_to_map
    [ (utf8 "entity_id", PStr (utf8 "ZhongLiBa"));
      (utf8 "label", PStr (utf8 "重力坝"));
      (utf8 "aliases", PList []);
      (utf8 "source_file", PStr SOURCE_FILENAME);
      (utf8 "description", PStr []);
      (utf8 "background_context", PStr []);
      (utf8 "entity_type",
        PDict {[ utf8 "primary_type" := PStr (utf8 "DomainConcept") ]});
      (utf8 "attributes", PDict ∅);
      (utf8 "relations",
        PList [PDict {[ utf8 "target_label" := PStr (utf8 "优化算法") ]}]) ].

End Demo.


(** The roster text a relation prompt carries is [roster_text]. *)
Definition relation_prompt_roster (roster_text : pystr) (ev : event) : Prop :=
  match ev with
  | EvLlm (RELATION_INFERENCE_PROMPT _ t) _ => t = roster_text
  | _ => True
  end.

(** Nothing but printing and reading the roster. *)
Definition is_idle (ev : event) : Prop :=
  match ev with
  | EvPrint (MsgProcessing _) => False
  | EvPrint _ | EvReadExcel _ _ => True
  | _ => False
  end.


(** ** llm_api_module.py: the prompt templates and the simulated backend *)

(** Substring search and slicing of [str]: [sub in s], [s.find(sub)],
    [s.rfind(sub)] and [s[a:b]]. *)
Fixpoint contains (s sub : pystr) : bool :=
  startswith s sub
  || match s with
     | [] => false
     | _ :: rest => contains rest sub
     end.

Fixpoint find_from (i : Z) (s sub : pystr) : Z :=
  if startswith s sub then i
  else match s with
       | [] => (-1)%Z
       | _ :: rest => find_from (i + 1)%Z rest sub
       end.

Definition find (s sub : pystr) : Z := find_from 0%Z s sub.

Fixpoint rfind_from (i : Z) (s sub : pystr) : Z :=
  match s with
  | [] => if startswith s sub then i else (-1)%Z
  | _ :: rest =>
      let later := rfind_from (i + 1)%Z rest sub in
      if (later =? -1)%Z
      then (if startswith s sub then i else (-1)%Z)
      else later
  end.

Definition rfind (s sub : pystr) : Z := rfind_from 0%Z s sub.

(** A slice bound as Python clips it: counted from the end when
    negative, and kept within the string. *)
Definition clip (len i : Z) : Z :=
  if (i <? 0)%Z then Z.max (i + len) 0 else Z.min i len.

Definition slice (s : pystr) (a b : Z) : pystr :=
  let len := Z.of_nat (length s) in
  let a := clip len a in
  let b := clip len b in
  if (a <? b)%Z
  then take (Z.to_nat (b - a)) (drop (Z.to_nat a) s)
  else [].

(** A template of the source, written with [\n] for a line break and
    [\q] for a double quote. *)
Fixpoint unescape (s : pystr) : pystr :=
  match s with
  | [] => []
  | c :: rest =>
      if c =? 92
      then match rest with
           | e :: rest' =>
               (if e =? 110 then 10 else if e =? 113 then 34 else e)
               :: unescape rest'
           | [] => [c]
           end
      else c :: unescape rest
  end.

Definition tpl (s : string) : pystr := unescape (utf8 s).

Definition ValueError (text : string) : exn := Exn "ValueError" (utf8 text).
Definition IndexError (text : string) : exn := Exn "IndexError" (utf8 text).
Definition KeyError (key : pystr) : exn := Exn "KeyError" key.

Definition prepend (v : pystr) (r : result pystr) : result pystr :=
  match r with
  | Ok s => Ok (v ++ s)
  | Raise e => Raise e
  end.

Fixpoint kwargs_lookup (kwargs : list (pystr * pystr)) (name : pystr)
    : option pystr :=
  match kwargs with
  | [] => None
  | (k, v) :: rest =>
      if decide (k = name) then Some v else kwargs_lookup rest name
  end.

(** [template.format] with keyword arguments, for templates whose
    replacement fields
    are bare keyword names, as those of the source are: a doubled brace
    stands for a brace, [{name}] for the argument [name], and the
    arguments are already converted to text. [field] holds, in reverse,
    the name of the field being read. *)
Fixpoint format_go (kwargs : list (pystr * pystr)) (field : option pystr)
    (t : pystr) : result pystr :=
  match t with
  | [] =>
      match field with
      | None => Ok []
      | Some _ => Raise (ValueError "expected '}' before end of string")
      end
  | c :: rest =>
      match field with
      | Some name =>
          if c =? 125
          then match name with
               | [] =>
                   Raise (IndexError
                            "Replacement index 0 out of range for positional args tuple")
               | _ =>
                   match kwargs_lookup kwargs (rev name) with
                   | Some v => prepend v (format_go kwargs None rest)
                   | None => Raise (KeyError (rev name))
                   end
               end
          else format_go kwargs (Some (c :: name)) rest
      | None =>
          if c =? 123
          then match rest with
               | c' :: rest' =>
                   if c' =? 123
                   then prepend [123] (format_go kwargs None rest')
                   else format_go kwargs (Some []) rest
               | [] =>
                   Raise (ValueError "Single '{' encountered in format string")
               end
          else if c =? 125
          then match rest with
               | c' :: rest' =>
                   if c' =? 125
                   then prepend [125] (format_go kwargs None rest')
                   else Raise (ValueError
                                 "Single '}' encountered in format string")
               | [] =>
                   Raise (ValueError "Single '}' encountered in format string")
               end
          else prepend [c] (format_go kwargs None rest)
      end
  end.

Definition py_format (template : pystr) (kwargs : list (pystr * pystr))
    : result pystr :=
  format_go kwargs None template.

Definition QUERY_AUGMENTATION_PROMPT_text : pystr :=
  tpl "\n" ++
  tpl "I am building a knowledge graph about smart water " ++
  tpl "conservancy. For the core entity \q{entity_name}\q, please " ++
  tpl "generate 5 specific and technical search engine queries to " ++
  tpl "find expert-level information about its principles, methods, " ++
  tpl "models, and application cases. Please focus on terms used in " ++
  tpl "academic and engineering fields, and include queries in both " ++
  tpl "Chinese and English.\n".

Definition TYPING_AND_DEFINITION_PROMPT_text : pystr :=
  tpl "\n" ++
  tpl "Based on the following aggregated text about \q{entity_name}\q:\n" ++
  tpl "--- TEXT START ---\n" ++
  tpl "{raw_text}\n" ++
  tpl "--- TEXT END ---\n" ++
  tpl "\n" ++
  tpl "Please perform the following tasks:\n" ++
  tpl "1.  **Classification**: Choose the most precise sub-type for " ++
  tpl "\q{entity_name}\q from the following `DomainConcept` sub-types: " ++
  tpl "`PhysicalObject`, `PhysicalPhenomenon`, `EngineeringProcess`, " ++
  tpl "`AbstractConcept`, `EconomicTerm`, `Property`. (Note: The " ++
  tpl "full list of types should be used here in a real " ++
  tpl "implementation).\n" ++
  tpl "2.  **Definition**: Write an accurate, objective, " ++
  tpl "encyclopedia-style definition (`description`) summarizing the " ++
  tpl "core meaning of \q{entity_name}\q.\n" ++
  tpl "3.  **Background**: Write a more detailed background " ++
  tpl "information section (`background_context`) explaining its " ++
  tpl "role, historical development, and importance in water " ++
  tpl "conservancy engineering.\n" ++
  tpl "\n" ++
  tpl "Please return the result in JSON format, containing the keys " ++
  tpl "`entity_type` (which should be an object with `primary_type` " ++
  tpl "and `sub_type`), `description`, and `background_context`.\n".

Definition ATTRIBUTE_EXTRACTION_PROMPT_text : pystr :=
  tpl "\n" ++
  tpl "Given that \q{entity_name}\q is an `{entity_type}`. Please " ++
  tpl "extract its key structured attributes from the same text " ++
  tpl "provided previously. The attributes to look for include, but " ++
  tpl "are not limited to:\n" ++
  tpl "- `objectives`: e.g., flood control, power generation, " ++
  tpl "irrigation, ecological protection.\n" ++
  tpl "- `input_data`: e.g., real-time hydrological data, weather " ++
  tpl "forecasts, water demand plans.\n" ++
  tpl "- `key_constraints`: e.g., flood control limited water level, " ++
  tpl "minimum downstream discharge, navigation requirements.\n" ++
  tpl "- `scheduling_rules`: e.g., scheduling chart, dispatching " ++
  tpl "regulations.\n" ++
  tpl "\n" ++
  tpl "Please format the extracted information as a JSON object to " ++
  tpl "be used as the value for the `attributes` field. If an " ++
  tpl "attribute is not found in the text, do not include its key.\n".

Definition RELATION_INFERENCE_PROMPT_text : pystr :=
  tpl "\n" ++
  tpl "Please re-analyze the text about \q{entity_name}\q and refer to " ++
  tpl "the following complete list of entities in the water " ++
  tpl "conservancy domain:\n" ++
  tpl "{all_entities_list}\n" ++
  tpl "\n" ++
  tpl "Identify and list all explicit or strongly implied " ++
  tpl "relationships between \q{entity_name}\q and other entities in " ++
  tpl "the master list. For each relationship, provide it in the " ++
  tpl "following JSON format:\n" ++
  tpl "`{{ \qtarget_entity_id\q: \q...\q, \qtarget_label\q: \q...\q, " ++
  tpl "\qrelationship_type\q: \q...\q }}`\n" ++
  tpl "\n" ++
  tpl "Focus on identifying relationship types such as:\n" ++
  tpl "- `uses_method`: Does it apply a certain mathematical method " ++
  tpl "(e.g., `OptimizationAlgorithm`, `LinearProgramming`)?\n" ++
  tpl "- `governed_by`: Is it constrained by a regulation or " ++
  tpl "technical standard (e.g., " ++
  tpl "`FloodDispatchPlanPreparationGuide`)?\n" ++
  tpl "- `mitigates`: Is it used to mitigate a natural phenomenon or " ++
  tpl "disaster (e.g., `Flood`, `Drought`)?\n" ++
  tpl "- `enables`: Does it support or enable a certain goal (e.g., " ++
  tpl "`HydropowerGeneration`, `Irrigation`)?\n" ++
  tpl "\n" ++
  tpl "Please ensure you only output high-confidence relationships " ++
  tpl "that are supported by the text.\n".

Definition FINAL_VALIDATION_PROMPT_text : pystr :=
  tpl "\n" ++
  tpl "You are a senior expert in water conservancy engineering. " ++
  tpl "Please review the following complete JSON data generated for " ++
  tpl "the entity \q{entity_name}\q. Evaluate its accuracy, logic, and " ++
  tpl "completeness within the professional context of water " ++
  tpl "conservancy engineering.\n" ++
  tpl "\n" ++
  tpl "- Is the classification correct?\n" ++
  tpl "- Are the attributes comprehensive and accurate?\n" ++
  tpl "- Are the relationships reasonable? For example, does the " ++
  tpl "relationship `uses_method: OptimizationAlgorithm` align with " ++
  tpl "engineering practice?\n" ++
  tpl "\n" ++
  tpl "If the data is completely correct, return it as is. If there " ++
  tpl "are any inaccuracies or omissions, please provide the " ++
  tpl "corrected, final version of the complete JSON.\n" ++
  tpl "\n" ++
  tpl "JSON_DATA:\n" ++
  tpl "{json_data}\n".

(** The text of a prompt, as [main.py] formats it. *)
Definition prompt_text `{Runtime} (p : prompt) : result pystr :=
  match p with
  | QUERY_AUGMENTATION_PROMPT entity_name =>
      py_format QUERY_AUGMENTATION_PROMPT_text
        [(utf8 "entity_name", entity_name)]
  | TYPING_AND_DEFINITION_PROMPT entity_name raw_text =>
      py_format TYPING_AND_DEFINITION_PROMPT_text
        [(utf8 "entity_name", entity_name); (utf8 "raw_text", raw_text)]
  | ATTRIBUTE_EXTRACTION_PROMPT entity_name entity_type =>
      py_format ATTRIBUTE_EXTRACTION_PROMPT_text
        [(utf8 "entity_name", entity_name);
         (utf8 "entity_type", format_value entity_type)]
  | RELATION_INFERENCE_PROMPT entity_name all_entities_list =>
      py_format RELATION_INFERENCE_PROMPT_text
        [(utf8 "entity_name", entity_name);
         (utf8 "all_entities_list", all_entities_list)]
  | FINAL_VALIDATION_PROMPT entity_name json_data =>
      py_format FINAL_VALIDATION_PROMPT_text
        [(utf8 "entity_name", entity_name); (utf8 "json_data", json_data)]
  end.

(** [json.dumps(v)] with the default options, which the simulated
    backend uses for its canned answers. *)
Class JsonDefault : Type := { json_dumps_default : pyval -> pystr }.

Module llm_api_module.

Definition QUERIES : pyval :=
  PList [ PStr (utf8 "水库调度 优化算法 应用");
          PStr (utf8 "reservoir scheduling optimization models");
          PStr (utf8 "水库调度 防洪兴利 联合调度");
          PStr (utf8 "水库调度 随机动态规划");
          PStr (utf8 "reservoir operation rules extraction") ].

Definition TYPING : pyval :=
  PDict (list_to_map
    [ (utf8 "entity_type",
        PDict (list_to_map
          [ (utf8 "primary_type", PStr (utf8 "DomainConcept"));
            (utf8 "sub_type", PStr (utf8 "EngineeringProcess")) ]));
      (utf8 "description",
        PStr (utf8 "这是由LLM生成的对'水库调度'的模拟描述。"));
      (utf8 "background_context",
        PStr (utf8 "这是由LLM生成的关于'水库调度'的模拟背景信息。")) ]).

Definition ATTRIBUTES : pyval :=
  PDict (list_to_map
    [ (utf8 "objectives",
        PList [PStr (utf8 "防洪"); PStr (utf8 "发电"); PStr (utf8 "灌溉")]);
      (utf8 "key_constraints",
        PList [PStr (utf8 "防洪限制水位"); PStr (utf8 "下游最小生态流量")]) ]).

Definition relation (target_entity_id target_label relationship_type : string)
    : pyval :=
  PDict (list_to_map
    [ (utf8 "target_entity_id", PStr (utf8 target_entity_id));
      (utf8 "target_label", PStr (utf8 target_label));
      (utf8 "relationship_type", PStr (utf8 relationship_type)) ]).

Definition RELATIONS : pyval :=
  PList [ relation "OptimizationAlgorithm" "优化算法" "uses_method";
          relation "FloodControlLawOfPRC" "中华人民共和国防洪法" "governed_by" ].

Definition PLACEHOLDER_LINE : pystr :=
  utf8 "--- [Placeholder] Sending prompt to LLM ---".

(** [get_llm_response]: the line it prints and the string it returns. *)
Definition get_llm_response `{JsonDefault} (prompt : pystr) : pystr * pystr :=
  (PLACEHOLDER_LINE,
   if contains prompt
        (utf8 "generate 5 specific and technical search engine queries")
   then json_dumps_default QUERIES
   else if contains prompt (utf8 "Classification")
           && contains prompt (utf8 "Definition")
   then json_dumps_default TYPING
   else if contains prompt (utf8 "extract its key structured attributes")
   then json_dumps_default ATTRIBUTES
   else if contains prompt (utf8 "re-analyze the text about")
   then json_dumps_default RELATIONS
   else if contains prompt (utf8 "You are a senior expert")
   then
     let start_index := find prompt (utf8 "{") in
     let end_index := (rfind prompt (utf8 "}") + 1)%Z in
     slice prompt start_index end_index
   else utf8 "{}").

End llm_api_module.

(** The stage a prompt belongs to decides which markers the simulated
    backend tests before it reaches the branch meant for that stage. *)
Definition earlier_branches_miss (p : prompt) (text : pystr) : Prop :=
  let query :=
    contains text
      (utf8 "generate 5 specific and technical search engine queries") in
  let typing :=
    contains text (utf8 "Classification")
    && contains text (utf8 "Definition") in
  let attribute :=
    contains text (utf8 "extract its key structured attributes") in
  let relation := contains text (utf8 "re-analyze the text about") in
  match p with
  | QUERY_AUGMENTATION_PROMPT _ => True
  | TYPING_AND_DEFINITION_PROMPT _ _ => query = false
  | ATTRIBUTE_EXTRACTION_PROMPT _ _ => query = false ∧ typing = false
  | RELATION_INFERENCE_PROMPT _ _ =>
      query = false ∧ typing = false ∧ attribute = false
  | FINAL_VALIDATION_PROMPT _ _ =>
      query = false ∧ typing = false ∧ attribute = false ∧ relation = false
  end.

(** The answer the simulated backend keeps for a stage; the last stage
    has none, its answer is cut out of the prompt. *)
Definition canned_answer (p : prompt) : option pyval :=
  match p with
  | QUERY_AUGMENTATION_PROMPT _ => Some llm_api_module.QUERIES
  | TYPING_AND_DEFINITION_PROMPT _ _ => Some llm_api_module.TYPING
  | ATTRIBUTE_EXTRACTION_PROMPT _ _ => Some llm_api_module.ATTRIBUTES
  | RELATION_INFERENCE_PROMPT _ _ => Some llm_api_module.RELATIONS
  | FINAL_VALIDATION_PROMPT _ _ => None
  end.

(** The texts [main.py] puts into the fields of a prompt. *)
Definition prompt_fields `{Runtime} (p : prompt) : list pystr :=
  match p with
  | QUERY_AUGMENTATION_PROMPT entity_name => [entity_name]
  | TYPING_AND_DEFINITION_PROMPT entity_name raw_text =>
      [entity_name; raw_text]
  | ATTRIBUTE_EXTRACTION_PROMPT entity_name entity_type =>
      [entity_name; format_value entity_type]
  | RELATION_INFERENCE_PROMPT entity_name all_entities_list =>
      [entity_name; all_entities_list]
  | FINAL_VALIDATION_PROMPT entity_name json_data =>
      [entity_name; json_data]
  end.

(** A text between an opening and a closing brace, as [json.dumps]
    writes a mapping. *)
Definition braced (body : pystr) : pystr := utf8 "{" ++ body ++ utf8 "}".

Definition demo_json_default : JsonDefault :=
  {| json_dumps_default := Demo.dumps_table None |}.

(** The part of a template between two positions. *)
Abbreviation seg t a b := (take (b - a)%nat (drop a%nat t)).

(** * Properties *)

(** ** Strings *)

Example utf8_zhonglibao :
  utf8 "重力坝" = [0x91CD; 0x529B; 0x575D].
Proof. reflexivity. Qed.

Example utf8_ascii : utf8 "a-b" = [97; 45; 98].
Proof. reflexivity. Qed.

Example split_example :
  split (utf8 "  zhong li	ba ") = [utf8 "zhong"; utf8 "li"; utf8 "ba"].
Proof. reflexivity. Qed.

Example strip_example : strip (utf8 "  a b  ") = utf8 "a b".
Proof. reflexivity. Qed.

Example SOURCE_FILENAME_value : SOURCE_FILENAME = utf8 "大渡河知识实体.xlsx".
Proof. reflexivity. Qed.


Lemma lstrip_all_space (s : pystr) :
  Forall (λ c, isspace c = true) s → lstrip s = [].
Proof.
  induction 1 as [|c rest Hc _ IH]; simpl; [done |]. by rewrite Hc.
Qed.

Lemma lstrip_nil_inv (s : pystr) :
  lstrip s = [] → Forall (λ c, isspace c = true) s.
Proof.
  induction s as [|c rest IH]; simpl; [constructor |].
  destruct (isspace c) eqn:Hc; [|done]. intros Hrest. constructor; auto.
Qed.

Lemma lstrip_head (s : pystr) c rest :
  lstrip s = c :: rest → isspace c = false.
Proof.
  induction s as [|x s' IH]; simpl; [done |].
  destruct (isspace x) eqn:Hx; [done |]. congruence.
Qed.

(** [s.strip()] is empty exactly when [s] is made of whitespace only. *)
Lemma strip_nil_iff (s : pystr) :
  strip s = [] ↔ Forall (λ c, isspace c = true) s.
Proof.
  unfold strip, rstrip. split.
  - intros Hs. apply lstrip_nil_inv.
    apply (f_equal (@rev N)) in Hs. rewrite rev_involutive in Hs. simpl in Hs.
    apply lstrip_nil_inv, Forall_rev in Hs. rewrite rev_involutive in Hs.
    destruct (lstrip s) as [|c rest] eqn:E; [done |].
    apply lstrip_head in E. apply Forall_cons in Hs as [Hc _]. congruence.
  - intros Hs. by rewrite (lstrip_all_space s Hs).
Qed.

(** ** The identifier and the assembled record *)

Ltac key_neq :=
  let E := fresh in intros E; vm_compute in E; discriminate E.

Section UtilsFacts.
Context `{Runtime}.

Lemma remove_non_alnum_spec (s : pystr) :
  Forall (λ c, is_alnum_ascii c = true) (remove_non_alnum s).
Proof.
  unfold remove_non_alnum. apply Forall_forall. intros c Hc.
  by apply list_elem_of_filter in Hc as [Hc _].
Qed.

Lemma is_alnum_ascii_range (c : N) :
  is_alnum_ascii c = true →
  (0x61 ≤ c ≤ 0x7A) ∨ (0x41 ≤ c ≤ 0x5A) ∨ (0x30 ≤ c ≤ 0x39).
Proof.
  unfold is_alnum_ascii.
  rewrite !orb_true_iff, !andb_true_iff, !N.leb_le. tauto.
Qed.

(** C6: the identifier [standardize_entity_id] returns holds only
    characters of [A-Za-z0-9], whatever the label; in particular it
    holds neither the middle dot (U+00B7) nor the hyphen (U+002D). *)
Theorem standardize_entity_id_alphanumeric (label : pystr) :
  Forall (λ c, (0x61 ≤ c ≤ 0x7A) ∨ (0x41 ≤ c ≤ 0x5A) ∨ (0x30 ≤ c ≤ 0x39))
    (standardize_entity_id label)
  ∧ (0xB7 ∉ standardize_entity_id label)
  ∧ (0x2D ∉ standardize_entity_id label).
Proof.
  pose proof (remove_non_alnum_spec
    (join_empty (map str_capitalize
      (split (pinyin_get (remove_special label)))))) as Hall.
  change (remove_non_alnum _) with (standardize_entity_id label) in Hall.
  split; [|split].
  - eapply Forall_impl; [exact Hall |]. apply is_alnum_ascii_range.
  - intros Hin. eapply Forall_forall in Hall; [|exact Hin].
    vm_compute in Hall. discriminate Hall.
  - intros Hin. eapply Forall_forall in Hall; [|exact Hin].
    vm_compute in Hall. discriminate Hall.
Qed.

(** C5: the [entity_id] of an assembled record is the identifier of
    the label, whatever the info mapping and the relations are; two
    records assembled for the same label have the same [entity_id]. *)
Theorem assemble_json_entity_id_from_label (label source_file : pystr)
    (info1 info2 : gmap pystr pyval) (relations1 relations2 : pyval) :
  (assemble_json label source_file info1 relations1).2 !! utf8 "entity_id"
    = Some (PStr (standardize_entity_id label))
  ∧ (assemble_json label source_file info2 relations2).2 !! utf8 "entity_id"
    = Some (PStr (standardize_entity_id label))
  ∧ (assemble_json label source_file info1 relations1).2 !! utf8 "entity_id"
    = (assemble_json label source_file info2 relations2).2 !! utf8 "entity_id".
Proof.
  assert (∀ info relations,
    (assemble_json label source_file info relations).2 !! utf8 "entity_id"
    = Some (PStr (standardize_entity_id label))) as Hid.
  { intros info relations. unfold assemble_json. simpl snd.
    rewrite !lookup_insert_ne by key_neq. apply lookup_insert_eq. }
  by rewrite !Hid.
Qed.

Lemma assemble_json_lookup (label source_file : pystr)
    (info : gmap pystr pyval) (relations : pyval) :
  let record := (assemble_json label source_file info relations).2 in
  record !! utf8 "entity_id" = Some (PStr (standardize_entity_id label))
  ∧ record !! utf8 "label" = Some (PStr label)
  ∧ record !! utf8 "aliases"
      = Some (dict_get info (utf8 "aliases") (PList []))
  ∧ record !! utf8 "source_file" = Some (PStr source_file)
  ∧ record !! utf8 "description"
      = Some (dict_get info (utf8 "description") (PStr []))
  ∧ record !! utf8 "background_context"
      = Some (dict_get info (utf8 "background_context") (PStr []))
  ∧ record !! utf8 "entity_type"
      = Some (dict_get info (utf8 "entity_type") (PDict ∅))
  ∧ record !! utf8 "attributes"
      = Some (dict_get info (utf8 "attributes") (PDict ∅))
  ∧ record !! utf8 "relations" = Some relations.
Proof.
  unfold assemble_json. simpl snd. cbv zeta.
  repeat split;
    rewrite ?lookup_insert_ne by key_neq; apply lookup_insert_eq.
Qed.

(** C4: [assemble_json] returns a record for every info mapping and
    relations list. The record has the nine required top-level keys,
    and where the info mapping lacks an optional key the default stands
    in its place: the empty list for [aliases], the empty string for
    [description] and [background_context], the empty mapping for
    [entity_type] and [attributes]. *)
Theorem assemble_json_total_with_defaults (label source_file : pystr)
    (info : gmap pystr pyval) (relations : pyval) :
  let record := (assemble_json label source_file info relations).2 in
  Forall (λ key, is_Some (record !! key)) (schema_required MASTER_SCHEMA)
  ∧ (info !! utf8 "aliases" = None →
     record !! utf8 "aliases" = Some (PList []))
  ∧ (info !! utf8 "description" = None →
     record !! utf8 "description" = Some (PStr []))
  ∧ (info !! utf8 "background_context" = None →
     record !! utf8 "background_context" = Some (PStr []))
  ∧ (info !! utf8 "entity_type" = None →
     record !! utf8 "entity_type" = Some (PDict ∅))
  ∧ (info !! utf8 "attributes" = None →
     record !! utf8 "attributes" = Some (PDict ∅)).
Proof.
  intros record.
  destruct (assemble_json_lookup label source_file info relations)
    as (Hid & Hlabel & Hal & Hsrc & Hdesc & Hbg & Hty & Hattr & Hrel).
  fold record in Hid, Hlabel, Hal, Hsrc, Hdesc, Hbg, Hty, Hattr, Hrel.
  split.
  - unfold MASTER_SCHEMA, schema_required.
    repeat (apply Forall_cons; split; [eauto |]). apply Forall_nil_2.
  - unfold dict_get in *.
    repeat split; intros Hnone; rewrite Hnone in *; assumption.
Qed.

End UtilsFacts.

(** With the pinyin table of the demonstration, the example of the
    docstring of [standardize_entity_id]. *)
Example standardize_entity_id_example :
  standardize_entity_id (H := Demo.runtime) (utf8 "重力坝") = utf8 "ZhongLiBa"
  ∧ standardize_entity_id (H := Demo.runtime) (utf8 "水库·调度-")
    = utf8 "ShuiKuDiaoDu".
Proof. split; reflexivity. Qed.

Lemma assemble_json_total_with_defaults_witness :
  let record :=
    (assemble_json (H := Demo.runtime)
       (utf8 "重力坝") SOURCE_FILENAME ∅ (PList [])).2 in
  record !! utf8 "aliases" = Some (PList [])
  ∧ record !! utf8 "description" = Some (PStr [])
  ∧ record !! utf8 "background_context" = Some (PStr [])
  ∧ record !! utf8 "entity_type" = Some (PDict ∅)
  ∧ record !! utf8 "attributes" = Some (PDict ∅).
Proof.
  destruct (assemble_json_total_with_defaults (H := Demo.runtime)
              (utf8 "重力坝") SOURCE_FILENAME ∅ (PList []))
    as (_ & Hal & Hdesc & Hbg & Hty & Hattr).
  intros record. split; [|split; [|split; [|split]]];
    [apply Hal | apply Hdesc | apply Hbg | apply Hty | apply Hattr];
    apply lookup_empty.
Defined.

(** ** The validator *)

Lemma check_type_None (key : pystr) (t : schema_type) (v : pyval) :
  check_type key t v = None ↔ has_type t v = true.
Proof. destruct t, v; unfold check_type; simpl; split; congruence. Qed.

Lemma check_required_None (required : list pystr) (d : gmap pystr pyval) :
  check_required required d = None ↔ Forall (λ key, is_Some (d !! key)) required.
Proof.
  induction required as [|key rest IH]; simpl.
  - split; [constructor | done].
  - rewrite Forall_cons. destruct (d !! key) as [v|] eqn:E.
    + rewrite IH. split; [intros; split; eauto | tauto].
    + split; [done | intros [[v Hv] _]; done].
Qed.

Lemma check_types_None (properties : list (pystr * schema))
    (d : gmap pystr pyval) :
  check_types properties d = None ↔
  Forall (λ p, ∀ v, d !! p.1 = Some v → has_type (schema_type_of p.2) v = true)
    properties.
Proof.
  induction properties as [|[key s] rest IH]; simpl.
  - split; [constructor | done].
  - rewrite Forall_cons. simpl. destruct (d !! key) as [v|] eqn:E.
    + destruct (check_type key (schema_type_of s) v) as [m|] eqn:Et.
      * split; [done | intros [Hv _]].
        specialize (Hv v eq_refl). apply (check_type_None key) in Hv.
        congruence.
      * apply check_type_None in Et. rewrite IH.
        split; [intros; split; [congruence | done] | tauto].
    + rewrite IH. split; [intros; split; [congruence | done] | tauto].
Qed.

Lemma validate_schema_true (d : gmap pystr pyval) :
  (validate_schema d).2 = true ↔
  check_required (schema_required MASTER_SCHEMA) d = None ∧
  check_types (schema_properties MASTER_SCHEMA) d = None.
Proof.
  unfold validate_schema.
  destruct (check_required _ d); [simpl; split; [done | intros [? _]; done] |].
  destruct (check_types _ d); simpl; split; try done. intros [_ ?]; done.
Qed.

(** The verdict of [validate_schema] spelled out key by key. *)
Lemma validate_schema_shapes (d : gmap pystr pyval) :
  (validate_schema d).2 = true ↔
    has_shape d "entity_id" is_str ∧ has_shape d "label" is_str ∧
    has_shape d "aliases" is_list ∧ has_shape d "source_file" is_str ∧
    has_shape d "description" is_str ∧
    has_shape d "background_context" is_str ∧
    has_shape d "entity_type" is_dict ∧ has_shape d "attributes" is_dict ∧
    has_shape d "relations" is_list.
Proof.
  rewrite validate_schema_true, check_required_None, check_types_None.
  unfold MASTER_SCHEMA, schema_required, schema_properties, has_shape.
  rewrite !Forall_cons, !Forall_nil. simpl.
  split.
  - intros [(H1&H2&H3&H4&H5&H6&H7&H8&H9&_) (T1&T2&T3&T4&T5&T6&T7&T8&T9&_)].
    repeat split;
    match goal with |- ∃ v, ?d !! ?k = Some v ∧ _ =>
      match goal with Hs : is_Some (d !! k) |- _ =>
        let v := fresh "v" in let Hv := fresh "Hv" in
        destruct Hs as [v Hv]; exists v; split; [exact Hv | auto] end end.
  - intros ((v1&L1&S1)&(v2&L2&S2)&(v3&L3&S3)&(v4&L4&S4)&(v5&L5&S5)
            &(v6&L6&S6)&(v7&L7&S7)&(v8&L8&S8)&(v9&L9&S9)).
    rewrite L1, L2, L3, L4, L5, L6, L7, L8, L9.
    repeat split; try (eexists; reflexivity); intros ? [= <-]; assumption.
Qed.

Lemma has_shape_insert_ne (d : gmap pystr pyval) (key : string) (k : pystr)
    (v : pyval) (test : pyval -> bool) :
  k ≠ utf8 key → has_shape (<[k:=v]> d) key test ↔ has_shape d key test.
Proof. intros Hne. unfold has_shape. by rewrite lookup_insert_ne. Qed.

Lemma has_shape_insert (d : gmap pystr pyval) (key : string) (v : pyval)
    (test : pyval -> bool) :
  has_shape (<[utf8 key:=v]> d) key test ↔ test v = true.
Proof.
  unfold has_shape. rewrite lookup_insert_eq. split.
  - by intros (v' & [= <-] & Hv).
  - intros Hv. by exists v.
Qed.

(** C1, as the code has it: [validate_schema] returns [True] exactly
    when each of the nine required top-level keys is present with a
    value of the top-level type the schema declares for it. It does not
    look inside [entity_type] or inside the entries of [relations]: a
    record that passes still passes when its [entity_type] is replaced
    by any mapping and its [relations] by any list, and a record whose
    [entity_type] is not a mapping fails. *)
Theorem validate_schema_checks_top_level_only (d : gmap pystr pyval) :
  ((validate_schema d).2 = true ↔
     has_shape d "entity_id" is_str ∧ has_shape d "label" is_str ∧
     has_shape d "aliases" is_list ∧ has_shape d "source_file" is_str ∧
     has_shape d "description" is_str ∧
     has_shape d "background_context" is_str ∧
     has_shape d "entity_type" is_dict ∧ has_shape d "attributes" is_dict ∧
     has_shape d "relations" is_list)
  ∧ ((validate_schema d).2 = true →
     ∀ (entity_type : gmap pystr pyval) (relations : list pyval),
       (validate_schema
          (<[utf8 "entity_type" := PDict entity_type]>
             (<[utf8 "relations" := PList relations]> d))).2 = true)
  ∧ (∀ v, d !! utf8 "entity_type" = Some v → is_dict v = false →
     (validate_schema d).2 = false).
Proof.
  split; [apply validate_schema_shapes | split].
  - intros Hd entity_type relations.
    apply validate_schema_shapes in Hd
      as (H1 & H2 & H3 & H4 & H5 & H6 & H7 & H8 & H9).
    apply validate_schema_shapes.
    rewrite has_shape_insert.
    rewrite !(has_shape_insert_ne _ _ (utf8 "entity_type")) by key_neq.
    rewrite has_shape_insert.
    rewrite !(has_shape_insert_ne _ _ (utf8 "relations")) by key_neq.
    tauto.
  - intros v Hv Hnot.
    destruct (validate_schema d).2 eqn:E; [|done].
    apply validate_schema_shapes in E as (_&_&_&_&_&_&(v'&Hv'&Hd)&_).
    congruence.
Qed.

(** C1, as stated, fails: a record with every required key whose
    [entity_type] lacks [sub_type], and whose relation entry lacks
    [target_entity_id], is accepted. *)
Lemma validate_schema_accepts_missing_sub_type :
  ¬ (∀ (d entity_type : gmap pystr pyval),
       d !! utf8 "entity_type" = Some (PDict entity_type) →
       entity_type !! utf8 "sub_type" = None →
       (validate_schema d).2 = false).
Proof.
  intros Hclaim.
  specialize (Hclaim Demo.record_without_sub_type
                {[ utf8 "primary_type" := PStr (utf8 "DomainConcept") ]}).
  assert ((validate_schema Demo.record_without_sub_type).2 = true) as Hpass
    by (vm_compute; reflexivity).
  rewrite Hclaim in Hpass; [discriminate Hpass | reflexivity | reflexivity].
Qed.

Lemma validate_schema_checks_top_level_only_witness :
  (validate_schema
     (<[utf8 "entity_type" := PDict ∅]>
        (<[utf8 "relations" := PList [PNone]]>
           Demo.record_without_sub_type))).2 = true.
Proof.
  apply (validate_schema_checks_top_level_only Demo.record_without_sub_type).
  vm_compute. reflexivity.
Defined.

Lemma check_required_insert (required : list pystr) (d : gmap pystr pyval)
    (key : pystr) (v : pyval) :
  key ∉ required →
  check_required required (<[key:=v]> d) = check_required required d.
Proof.
  induction required as [|k rest IH]; simpl; [done |].
  intros [Hne Hrest]%not_elem_of_cons.
  rewrite lookup_insert_ne by done. rewrite IH by done. done.
Qed.

Lemma check_types_insert (properties : list (pystr * schema))
    (d : gmap pystr pyval) (key : pystr) (v : pyval) :
  key ∉ properties.*1 →
  check_types properties (<[key:=v]> d) = check_types properties d.
Proof.
  induction properties as [|[k s] rest IH]; simpl; [done |].
  intros [Hne Hrest]%not_elem_of_cons.
  rewrite lookup_insert_ne by done. rewrite IH by done. done.
Qed.

(** A key the schema does not name changes neither the verdict nor the
    lines printed. *)
Lemma validate_schema_insert_unknown (d : gmap pystr pyval) (key : pystr)
    (v : pyval) :
  key ∉ (schema_properties MASTER_SCHEMA).*1 →
  validate_schema (<[key:=v]> d) = validate_schema d.
Proof.
  intros Hkey. unfold validate_schema.
  rewrite check_types_insert by done.
  rewrite check_required_insert by exact Hkey.
  rewrite lookup_insert_ne; [done |].
  intros ->. apply Hkey. vm_compute. set_solver.
Qed.

(** C10: a record that passes [validate_schema] still passes when a
    top-level key the schema does not name is added to it. *)
Theorem validate_schema_ignores_unknown_keys (d : gmap pystr pyval)
    (key : pystr) (v : pyval) :
  key ∉ (schema_properties MASTER_SCHEMA).*1 →
  (validate_schema d).2 = true →
  (validate_schema (<[key:=v]> d)).2 = true.
Proof. intros Hkey Hd. by rewrite validate_schema_insert_unknown. Qed.

Lemma validate_schema_ignores_unknown_keys_witness :
  (validate_schema
     (<[utf8 "confidence" := PInt 3]> Demo.record_without_sub_type)).2 = true.
Proof.
  apply validate_schema_ignores_unknown_keys.
  - vm_compute. intros Hin.
    repeat (apply elem_of_cons in Hin as [Hin | Hin]; [discriminate Hin |]).
    by apply elem_of_nil in Hin.
  - vm_compute. reflexivity.
Defined.

(** ** Runs of computations *)

Lemma bind_run {A B} (m : M A) (f : A -> M B) h w r :
  (m ≫= f) h = (w, r) →
  (∃ e, m h = (w, Raise e) ∧ r = Raise e)
  ∨ (∃ a w1 w2, m h = (w1, Ok a) ∧ f a (h ++ w1) = (w2, r) ∧ w = w1 ++ w2).
Proof.
  unfold mbind, M_bind, bind. destruct (m h) as [w1 [a|e]].
  - destruct (f a (h ++ w1)) as [w2 r2] eqn:E. intros [= <- <-].
    right. by exists a, w1, w2.
  - intros [= <- <-]. left. by exists e.
Qed.

Lemma bind_events {A B} (m : M A) (f : A -> M B) h :
  ∃ w2, ((m ≫= f) h).1 = (m h).1 ++ w2
        ∧ (w2 = [] ∨ ∃ a, m h = ((m h).1, Ok a) ∧ w2 = (f a (h ++ (m h).1)).1).
Proof.
  unfold mbind, M_bind, bind. destruct (m h) as [w1 [a|e]]; simpl.
  - destruct (f a (h ++ w1)) as [w2 r2] eqn:E. exists w2. split; [done |].
    right. exists a. by rewrite E.
  - exists []. split; [by rewrite app_nil_r | by left].
Qed.

Section Emits.
Context {A B : Type} (P : event -> Prop).

Lemma emits_ret (a : A) : emits P (mret a).
Proof. intros h. constructor. Qed.

Lemma emits_raise (e : exn) : emits P (@raise A e).
Proof. intros h. constructor. Qed.

Lemma emits_bind (m : M A) (f : A -> M B) :
  emits P m → (∀ a, emits P (f a)) → emits P (m ≫= f).
Proof.
  intros Hm Hf h. destruct (bind_events m f h) as (w2 & -> & Hw2).
  apply Forall_app. split; [apply Hm |].
  destruct Hw2 as [-> | (a & _ & ->)]; [constructor | apply Hf].
Qed.

Lemma emits_print (m : msg) : P (EvPrint m) → emits P (print m).
Proof. intros Hm h. by repeat constructor. Qed.

Lemma emits_say (p : list msg * A) :
  Forall (λ m, P (EvPrint m)) p.1 → emits P (say p).
Proof. intros Hp h. unfold say. simpl. by apply Forall_fmap. Qed.

Lemma emits_call (ev : result A -> event) oracle :
  (∀ r, P (ev r)) → emits P (call ev oracle).
Proof. intros Hev h. by repeat constructor. Qed.

Lemma emits_ask (oracle : list event -> A) : emits P (ask oracle).
Proof. intros h. constructor. Qed.

Lemma emits_try_except (m : M A) (handler : exn -> M A) :
  emits P m → (∀ e, emits P (handler e)) → emits P (try_except m handler).
Proof.
  intros Hm Hh h. unfold try_except.
  pose proof (Hm h) as Hw. destruct (m h) as [w1 [a|e]]; [done |].
  pose proof (Hh e (h ++ w1)) as Hw2. destruct (handler e (h ++ w1)).
  apply Forall_app. by split.
Qed.

Lemma emits_py_get (v : pyval) (on_dict : gmap pystr pyval -> M A) :
  (∀ d, emits P (on_dict d)) → emits P (py_get v on_dict).
Proof. intros Hd. destruct v; simpl; auto using emits_raise. Qed.

End Emits.

Lemma emits_for_each {A} (P : event -> Prop) (xs : list A) (body : A -> M unit) :
  (∀ x, emits P (body x)) → emits P (for_each xs body).
Proof.
  intros Hbody. induction xs as [|x rest IH]; simpl.
  - apply emits_ret.
  - apply emits_bind; auto.
Qed.

(** The lines of [validate_schema]. *)
Lemma check_required_verdict (required : list pystr) (d : gmap pystr pyval) m :
  check_required required d = Some m → is_verdict m.
Proof.
  induction required as [|key rest IH]; simpl; [done |].
  destruct (d !! key); [done | by intros [= <-]].
Qed.

Lemma check_types_verdict (properties : list (pystr * schema))
    (d : gmap pystr pyval) m :
  check_types properties d = Some m → is_verdict m.
Proof.
  induction properties as [|[key s] rest IH]; simpl; [done |].
  destruct (d !! key) as [v|]; [|done].
  destruct (check_type key (schema_type_of s) v) as [m'|] eqn:E; [|done].
  intros [= <-]. unfold check_type in E.
  repeat case_match; simplify_eq; done.
Qed.

Lemma validate_schema_lines (d : gmap pystr pyval) :
  ∃ label m, (validate_schema d).1 = [MsgValidating label; m] ∧ is_verdict m.
Proof.
  unfold validate_schema.
  destruct (check_required _ d) as [m|] eqn:Er.
  { eexists _, m. split; [done |]. by eapply check_required_verdict. }
  destruct (check_types _ d) as [m|] eqn:Et.
  { eexists _, m. split; [done |]. by eapply check_types_verdict. }
  by eexists _, _.
Qed.

Lemma emits_say_validate (P : event -> Prop) (d : gmap pystr pyval) :
  (∀ label, P (EvPrint (MsgValidating label))) →
  (∀ m, is_verdict m → P (EvPrint m)) →
  emits P (say (validate_schema d)).
Proof.
  intros Hl Hm. apply emits_say.
  destruct (validate_schema_lines d) as (label & m & -> & Hv).
  repeat constructor; auto.
Qed.

(** ** The pipeline *)

Ltac event_side :=
  simpl; first [tauto | done | (intros []; done)].

(** Membership in a trace that is written out. *)
Ltac in_trace Hin :=
  cbn [app] in Hin;
  repeat (apply elem_of_cons in Hin as [Hin | Hin];
          [try discriminate Hin |]);
  try (by apply elem_of_nil in Hin).

Section PipelineFacts.
Context `{Runtime} `{Collaborators}.

Lemma emits_loads (P : event -> Prop) (s : pystr) : emits P (loads s).
Proof. intros h. constructor. Qed.

Ltac emits_step :=
  first
    [ apply emits_ret
    | apply emits_raise
    | apply emits_ask
    | apply emits_loads
    | apply emits_print; event_side
    | apply emits_call; intros ?; event_side
    | apply emits_say_validate; [intros ?; event_side | intros [] ?; event_side]
    | apply emits_say; simpl; repeat constructor; event_side
    | apply emits_bind; [|intros ?]
    | apply emits_try_except; [|intros ?]
    | apply emits_py_get; intros ?
    | match goal with
      | |- emits _ (if ?b then _ else _) => destruct b
      | |- emits _ (llm _) => unfold llm
      | |- emits _ (save_json_to_file _ _) => unfold save_json_to_file
      end
    | progress cbv zeta ].

Ltac emits_tac := repeat emits_step.

Lemma save_json_to_file_emits (json_data : pyval) (output_dir : pystr) :
  emits is_storage_event (save_json_to_file json_data output_dir).
Proof. emits_tac. Qed.

Lemma no_information_all_space (raw_text : pystr) :
  Forall (λ c, isspace c = true) raw_text → no_information raw_text = true.
Proof.
  intros Hs. unfold no_information. destruct raw_text; [done |].
  by rewrite (proj2 (strip_nil_iff _) Hs).
Qed.

Lemma call_run {A} (ev : result A -> event) oracle h w (r : result A) :
  call ev oracle h = (w, r) → w = [ev r].
Proof. unfold call. by intros [= <- <-]. Qed.

Lemma print_run (m : msg) h w r :
  print m h = (w, r) → w = [EvPrint m] ∧ r = Ok tt.
Proof. unfold print. by intros [= <- <-]. Qed.

Lemma loads_run (s : pystr) h w r : loads s h = (w, r) → w = [].
Proof. unfold loads. by intros [= <- _]. Qed.

(** One step of a run: the first computation of a sequence either
    raised or returned. *)
Ltac run_first Hm :=
  first
    [ apply print_run in Hm as [-> Hm]; try discriminate Hm
    | apply loads_run in Hm as ->
    | unfold llm in Hm; apply call_run in Hm as ->
    | apply call_run in Hm as -> ].

Ltac run_bind Hrun :=
  let Hm := fresh "Hm" in
  apply bind_run in Hrun as [(? & Hm & ->) | (? & ? & ? & Hm & Hrun & ->)];
  run_first Hm.

(** C3: when the retrieval stage returns a text that is empty or made
    of whitespace only, the run of the entity ends right there. It
    returns normally having printed the warning, and its whole trace is
    the announcement, query augmentation and the retrieval: no later
    stage, no assembly, no validation and no access to the output
    directory. *)
Theorem process_entity_stops_without_information
    (entity_name : pystr) (all_entities_list : list pystr)
    (h w : list event) (r : result unit) (queries : pyval) (raw_text : pystr) :
  process_entity entity_name all_entities_list h = (w, r) →
  EvCrawl queries (Ok raw_text) ∈ w →
  Forall (λ c, isspace c = true) raw_text →
  r = Ok tt
  ∧ (∃ queries_str,
       w = [ EvPrint (MsgProcessing entity_name);
             EvPrint (MsgStage 1);
             EvLlm (QUERY_AUGMENTATION_PROMPT entity_name) (Ok queries_str);
             EvCrawl queries (Ok raw_text);
             EvPrint (MsgNoInformation entity_name) ])
  ∧ Forall (λ ev, ¬ is_later_stage ev ∧ ¬ is_file_access ev) w.
Proof.
  intros Hrun Hin Hspace. unfold process_entity in Hrun.
  run_bind Hrun. run_bind Hrun.
  run_bind Hrun; [in_trace Hin |].
  run_bind Hrun; [in_trace Hin |].
  run_bind Hrun; [in_trace Hin |].
  destruct (no_information _) eqn:Einfo.
  - apply print_run in Hrun as [-> ->]. in_trace Hin.
    injection Hin as -> ->. split; [done |]. split; [by eexists |].
    repeat constructor; event_side.
  - exfalso.
    assert (Forall (λ ev, ¬ is_crawl ev) x6) as Hquiet.
    { match type of Hrun with
      | ?m ?h' = _ =>
          assert (emits (λ ev, ¬ is_crawl ev) m) as Hem by emits_tac;
          specialize (Hem h'); by rewrite Hrun in Hem
      end. }
    in_trace Hin.
    + injection Hin as -> ->.
      by rewrite no_information_all_space in Einfo.
    + eapply Forall_forall in Hquiet; [|exact Hin]. by apply Hquiet.
Qed.

(** *** The storage writer *)

(** Every run of [save_json_to_file] on a mapping: either creating the
    directory raised, or the file named after [entity_id] was opened
    and the call returned, the write having succeeded or not. *)
Lemma save_json_to_file_run (d : gmap pystr pyval) (output_dir : pystr)
    (h w : list event) (r : result unit) :
  save_json_to_file (PDict d) output_dir h = (w, r) →
  let entity_id :=
    dict_get d (utf8 "entity_id") (PStr (utf8 "unknown_entity")) in
  let filepath :=
    path_join output_dir (format_value entity_id ++ utf8 ".json") in
  (∃ e, w = [EvMakedirs output_dir (Raise e)] ∧ r = Raise e)
  ∨ (∃ pre tail,
       w = pre ++ EvPrint (MsgSaving filepath) :: tail ∧ r = Ok tt
       ∧ (pre = [] ∨ pre = [EvMakedirs output_dir (Ok tt)])
       ∧ (tail = [ EvOpen filepath (Ok tt);
                   EvDump filepath (PDict d) (Ok tt);
                   EvPrint MsgSaveSuccessful ]
          ∨ (∃ e, tail = [ EvOpen filepath (Ok tt);
                           EvDump filepath (PDict d) (Raise e);
                           EvPrint (MsgSaveError e) ])
          ∨ (∃ e, tail = [ EvOpen filepath (Raise e);
                           EvPrint (MsgSaveError e) ]))).
Proof.
  intros Hrun entity_id filepath.
  unfold save_json_to_file, mbind, M_bind, bind, ask, call, py_get,
    try_except, print in Hrun.
  fold entity_id filepath in Hrun. simpl in Hrun.
  destruct (path_exists h output_dir); simpl in Hrun;
    repeat match type of Hrun with
           | context [match ?o with Ok _ => _ | Raise _ => _ end] =>
               destruct o as [[]|?]; simpl in Hrun
           end;
    injection Hrun as <- <-.
  all: try (left; by eexists).
  all: right;
    first [ exists []; eexists; split; [reflexivity |]
          | exists [EvMakedirs output_dir (Ok tt)]; eexists;
            split; [reflexivity |] ];
    (split; [done |]); (split; [by (left + right) |]);
    first [ by left | right; left; by eexists | right; right; by eexists ].
Qed.

Lemma save_json_to_file_raise (json_data : pyval) (output_dir : pystr)
    (h w : list event) (e : exn) :
  save_json_to_file json_data output_dir h = (w, Raise e) →
  Forall (λ ev, ¬ is_file_access ev) w.
Proof.
  intros Hrun. destruct json_data as [| | | | |l|d].
  7: { apply save_json_to_file_run in Hrun
         as [(e' & -> & _) | (? & ? & _ & ? & _)]; [|done].
       repeat constructor; event_side. }
  all: unfold save_json_to_file, mbind, M_bind, bind, ask, call, py_get,
         raise in Hrun; simpl in Hrun;
       destruct (path_exists h output_dir); simpl in Hrun;
       repeat match type of Hrun with
              | context [match ?o with Ok _ => _ | Raise _ => _ end] =>
                  destruct o as [[]|?]; simpl in Hrun
              end;
       injection Hrun as <- <-; repeat constructor; event_side.
Qed.

(** C9: a record without the key [entity_id] is not turned away by the
    storage writer. The only file the call touches is
    [unknown_entity.json] in the output directory; unless creating the
    directory raised, the call returns normally having opened that file
    for writing, and once the file is open the record is dumped into
    it. *)
Theorem save_json_to_file_without_entity_id (d : gmap pystr pyval)
    (output_dir : pystr) (h w : list event) (r : result unit) :
  d !! utf8 "entity_id" = None →
  save_json_to_file (PDict d) output_dir h = (w, r) →
  let filepath := path_join output_dir (utf8 "unknown_entity.json") in
  (∀ p ro, EvOpen p ro ∈ w → p = filepath)
  ∧ (∀ p v rd, EvDump p v rd ∈ w → p = filepath ∧ v = PDict d)
  ∧ ((∀ e, EvMakedirs output_dir (Raise e) ∉ w) →
     r = Ok tt ∧ ∃ ro, EvOpen filepath ro ∈ w)
  ∧ (EvOpen filepath (Ok tt) ∈ w →
     ∃ rd, EvDump filepath (PDict d) rd ∈ w).
Proof.
  intros Hnone Hrun filepath.
  apply save_json_to_file_run in Hrun. unfold dict_get in Hrun.
  rewrite Hnone in Hrun. cbv zeta in Hrun. cbn [format_value] in Hrun.
  change (utf8 "unknown_entity" ++ utf8 ".json")
    with (utf8 "unknown_entity.json") in Hrun.
  fold filepath in Hrun.
  destruct Hrun as [(e & -> & ->) | (pre & tail & -> & -> & Hpre & Htail)].
  { split; [|split; [|split]].
    - intros p ro Hin. in_trace Hin.
    - intros p v rd Hin. in_trace Hin.
    - intros Hdir. exfalso. eapply Hdir. apply list_elem_of_here.
    - intros Hin. in_trace Hin. }
  destruct Hpre as [-> | ->];
    destruct Htail as [-> | [(e & ->) | (e & ->)]]; cbn [app].
  all: split; [|split; [|split]].
  all: try (intros p ro Hin; in_trace Hin; congruence).
  all: try (intros p v rd Hin; in_trace Hin; by simplify_eq).
  all: try (intros _; split; [done |]; eexists; apply list_elem_of_lookup;
            (exists 1%nat + exists 2%nat); reflexivity).
  all: try (intros Hin; in_trace Hin; fail).
  all: intros _; eexists; apply list_elem_of_lookup;
       (exists 2%nat + exists 3%nat); reflexivity.
Qed.

Lemma reports_after_access_quiet (entity_name : pystr) (m : M unit) :
  emits (λ ev, ¬ is_file_access ev) m → reports_after_access entity_name m.
Proof.
  intros Hm h w r Hrun Hacc. exfalso.
  specialize (Hm h). rewrite Hrun in Hm. simpl in Hm.
  apply Exists_exists in Hacc as (ev & Hin & Hev).
  eapply Forall_forall in Hm; [|exact Hin]. by apply Hm.
Qed.

Lemma reports_after_access_bind {A} (entity_name : pystr) (m : M A)
    (f : A -> M unit) :
  emits (λ ev, ¬ is_file_access ev) m →
  (∀ a, reports_after_access entity_name (f a)) →
  reports_after_access entity_name (m ≫= f).
Proof.
  intros Hm Hf h w r Hrun Hacc.
  pose proof (Hm h) as Hquiet.
  apply bind_run in Hrun as [(e & Hrun & ->) | (a & w1 & w2 & Hrun & Hk & ->)];
    rewrite Hrun in Hquiet; simpl in Hquiet.
  - exfalso. apply Exists_exists in Hacc as (ev & Hin & Hev).
    eapply Forall_forall in Hquiet; [|exact Hin]. by apply Hquiet.
  - apply Exists_app in Hacc as [Hacc | Hacc].
    { exfalso. apply Exists_exists in Hacc as (ev & Hin & Hev).
      eapply Forall_forall in Hquiet; [|exact Hin]. by apply Hquiet. }
    destruct (Hf a _ _ _ Hk Hacc) as [-> Hlast]. split; [done |].
    destruct w2 as [|ev w2]; [done |].
    by rewrite last_app_cons.
Qed.

Lemma reports_after_access_py_get (entity_name : pystr) (v : pyval)
    (on_dict : gmap pystr pyval -> M unit) :
  (∀ d, reports_after_access entity_name (on_dict d)) →
  reports_after_access entity_name (py_get v on_dict).
Proof.
  intros Hd. destruct v; simpl; auto;
    apply reports_after_access_quiet, emits_raise.
Qed.

Lemma reports_after_access_save (entity_name : pystr) (json_data : pyval)
    (output_dir : pystr) :
  reports_after_access entity_name
    (_ ← save_json_to_file json_data output_dir;
     print (MsgSuccessfullyProcessed entity_name)).
Proof.
  intros h w r Hrun Hacc.
  apply bind_run in Hrun as [(e & Hrun & ->) | (a & w1 & w2 & Hrun & Hk & ->)].
  - exfalso. apply save_json_to_file_raise in Hrun.
    apply Exists_exists in Hacc as (ev & Hin & Hev).
    eapply Forall_forall in Hrun; [|exact Hin]. by apply Hrun.
  - apply print_run in Hk as [-> ->]. split; [done |]. apply last_snoc.
Qed.

Ltac reports_step :=
  first
    [ apply reports_after_access_save
    | apply reports_after_access_bind; [solve [emits_tac] | intros ?]
    | apply reports_after_access_py_get; intros ?
    | match goal with
      | |- reports_after_access _ (if ?b then _ else _) => destruct b
      end
    | apply reports_after_access_quiet; solve [emits_tac]
    | progress cbv zeta ].

Lemma process_entity_reports_after_access
    (entity_name : pystr) (all_entities_list : list pystr) :
  reports_after_access entity_name
    (process_entity entity_name all_entities_list).
Proof. unfold process_entity. repeat reports_step. Qed.

(** C8: the storage writer does not let a write failure out. When
    opening the file or dumping into it raised, [save_json_to_file]
    has printed the error and returned normally; and the run of the
    entity in which this happened returned normally too, its last line
    reporting the entity as successfully processed. *)
Theorem save_json_to_file_swallows_write_failure :
  (∀ (d : gmap pystr pyval) (output_dir : pystr) (h w : list event)
     (r : result unit) (e : exn),
     save_json_to_file (PDict d) output_dir h = (w, r) →
     (∃ p, EvOpen p (Raise e) ∈ w) ∨ (∃ p v, EvDump p v (Raise e) ∈ w) →
     r = Ok tt ∧ last w = Some (EvPrint (MsgSaveError e)))
  ∧ (∀ (entity_name : pystr) (all_entities_list : list pystr)
       (h w : list event) (r : result unit) (e : exn),
     process_entity entity_name all_entities_list h = (w, r) →
     (∃ p, EvOpen p (Raise e) ∈ w) ∨ (∃ p v, EvDump p v (Raise e) ∈ w) →
     r = Ok tt
     ∧ last w = Some (EvPrint (MsgSuccessfullyProcessed entity_name))).
Proof.
  split.
  - intros d output_dir h w r e Hrun Hfail.
    apply save_json_to_file_run in Hrun. cbv zeta in Hrun.
    destruct Hrun as [(e' & -> & ->) | (pre & tail & -> & -> & Hpre & Htail)].
    { destruct Hfail as [(p & Hin) | (p & v & Hin)]; in_trace Hin. }
    split; [done |].
    destruct Hpre as [-> | ->];
      destruct Htail as [-> | [(e' & ->) | (e' & ->)]];
      destruct Hfail as [(p & Hin) | (p & v & Hin)];
      in_trace Hin; by simplify_eq.
  - intros entity_name all_entities_list h w r e Hrun Hfail.
    eapply process_entity_reports_after_access; [exact Hrun |].
    apply Exists_exists.
    destruct Hfail as [(p & Hin) | (p & v & Hin)]; eexists; (split; [exact Hin | done]).
Qed.

(** *** The driver *)

Lemma started_app (w1 w2 : list event) :
  started (w1 ++ w2) = started w1 ++ started w2.
Proof.
  induction w1 as [|ev w1 IH]; [done |].
  destruct ev as [[] | | | | | |]; simpl; by rewrite ?IH.
Qed.

Lemma started_quiet (w : list event) :
  Forall (λ ev, ¬ is_processing ev) w → started w = [].
Proof.
  induction 1 as [|ev w Hev _ IH]; [done |].
  destruct ev as [[] | | | | | |]; simpl in *; tauto.
Qed.

(** A run of [process_entity] announces its entity, once. *)
Lemma process_entity_started (entity_name : pystr)
    (all_entities_list : list pystr) (h : list event) :
  started (process_entity entity_name all_entities_list h).1 = [entity_name].
Proof.
  unfold process_entity.
  match goal with
  | |- context [(?m ≫= ?f) h] =>
      destruct (bind_events m f h) as (w2 & -> & Hw2);
      assert (∀ a, emits (λ ev, ¬ is_processing ev) (f a)) as Hquiet
        by (intros ?; emits_tac)
  end.
  rewrite started_app.
  assert (started w2 = []) as ->.
  { destruct Hw2 as [-> | (a & _ & ->)]; [done |].
    apply started_quiet, (Hquiet a). }
  done.
Qed.

Lemma process_all_cons (entity_name : pystr)
    (rest all_entities_list : list pystr) (h : list event) :
  ∃ w1,
    started w1 = [entity_name]
    ∧ (process_entity entity_name all_entities_list h = (w1, Ok tt)
       ∨ ∃ e w0, process_entity entity_name all_entities_list h = (w0, Raise e)
           ∧ w1 = w0 ++ [ EvPrint (MsgCriticalError entity_name e);
                          EvPrint MsgSkipping ])
    ∧ process_all (entity_name :: rest) all_entities_list h
      = (w1 ++ (process_all rest all_entities_list (h ++ w1)).1,
         (process_all rest all_entities_list (h ++ w1)).2).
Proof.
  pose proof (process_entity_started entity_name all_entities_list h) as Hst.
  unfold process_all. simpl for_each.
  unfold mbind, M_bind, bind, try_except, print.
  destruct (process_entity entity_name all_entities_list h) as [w0 [[]|e]];
    simpl in *.
  - exists w0. split; [done |]. split; [by left |].
    by destruct (for_each rest _ (h ++ w0)).
  - exists (w0 ++ [EvPrint (MsgCriticalError entity_name e);
                   EvPrint MsgSkipping]).
    split; [by rewrite started_app, Hst |].
    split; [right; by exists e, w0 |].
    rewrite <- !(assoc_L (++)). simpl.
    destruct (for_each rest _ _). simpl. by rewrite <- !(assoc_L (++)).
Qed.

Lemma process_all_run (entities all_entities_list : list pystr)
    (h : list event) :
  (process_all entities all_entities_list h).2 = Ok tt
  ∧ started (process_all entities all_entities_list h).1 = entities.
Proof.
  revert h. induction entities as [|entity_name rest IH]; intros h; [done |].
  destruct (process_all_cons entity_name rest all_entities_list h)
    as (w1 & Hst & _ & ->).
  destruct (IH (h ++ w1)) as [Hr Hrest]. simpl.
  split; [done |]. by rewrite started_app, Hst, Hrest.
Qed.

Lemma process_all_emits (P : event -> Prop)
    (entities all_entities_list : list pystr) :
  (∀ entity_name, emits P (process_entity entity_name all_entities_list)) →
  (∀ m, (∀ entity_name, m ≠ MsgProcessing entity_name) → P (EvPrint m)) →
  emits P (process_all entities all_entities_list).
Proof.
  intros Hentity Hprint. unfold process_all.
  apply emits_for_each. intros entity_name.
  apply emits_try_except; [apply Hentity | intros e].
  apply emits_bind; [|intros _]; apply emits_print; by apply Hprint.
Qed.

Lemma process_all_reads_no_roster (entities all_entities_list : list pystr) :
  emits (λ ev, ¬ is_read_excel ev) (process_all entities all_entities_list).
Proof.
  apply process_all_emits; [|intros; event_side].
  intros entity_name. unfold process_entity. emits_tac.
Qed.

(** The roster loader always returns: with the first column of the
    sheet, or with the empty list when reading raised. *)
Lemma load_all_entities_from_excel_run (filepath : pystr)
    (h w : list event) (r : result (list pystr)) :
  load_all_entities_from_excel filepath h = (w, r) →
  ∃ res line,
    w = [EvPrint (MsgLoading filepath); EvReadExcel filepath res; EvPrint line]
    ∧ ((∃ roster, res = Ok roster ∧ r = Ok roster
                  ∧ line = MsgFound (length roster))
       ∨ (∃ e, res = Raise e ∧ r = Ok []
               ∧ (line = MsgFileNotFound filepath ∨ line = MsgExcelError e))).
Proof.
  unfold load_all_entities_from_excel, mbind, M_bind, bind, try_except,
    call, print, mret, M_ret, ret.
  simpl. destruct (read_excel_column _ filepath) as [roster|e]; simpl.
  - intros [= <- <-]. eexists _, _. split; [done |]. left. by exists roster.
  - destruct (is_FileNotFoundError e); simpl; intros [= <- <-];
      eexists _, _; (split; [done |]); right; exists e; auto.
Qed.

(** What [main] does once the roster is loaded. *)
Lemma main_after_loading (all_entities_list : list pystr)
    (h w : list event) (r : result unit) :
  match all_entities_list with
  | [] => print MsgNoEntities
  | _ =>
      let entities_to_process := take 2 all_entities_list in
      _ ← print (MsgFoundTotal (length all_entities_list)
                   (length entities_to_process));
      _ ← process_all entities_to_process all_entities_list;
      _ ← print MsgBannerRuleAfterBlank;
      _ ← print MsgBannerFinished;
      print MsgBannerRule
  end h = (w, r) →
  r = Ok tt
  ∧ started w = take 2 all_entities_list
  ∧ Forall (λ ev, ¬ is_read_excel ev) w.
Proof.
  destruct all_entities_list as [|x l].
  { intros [-> ->]%print_run. repeat constructor. event_side. }
  set (all_entities_list := x :: l). cbv zeta. intros Hrun.
  run_bind Hrun.
  apply bind_run in Hrun
    as [(e & Hall & ->) | ([] & w1 & w2 & Hall & Hrun & ->)].
  { destruct (process_all_run (take 2 all_entities_list) all_entities_list
                (h ++ [EvPrint (MsgFoundTotal (length all_entities_list)
                         (length (take 2 all_entities_list)))])) as [Hr _].
    rewrite Hall in Hr. discriminate Hr. }
  run_bind Hrun. run_bind Hrun. apply print_run in Hrun as [-> ->].
  match type of Hall with
  | process_all ?es ?al ?h' = _ =>
      destruct (process_all_run es al h') as [_ Hst];
      pose proof (process_all_reads_no_roster es al h') as Hquiet;
      rewrite Hall in Hst, Hquiet; simpl in Hst, Hquiet
  end.
  split; [done |]. split.
  - rewrite !started_app, Hst. simpl. by rewrite app_nil_r.
  - repeat (apply Forall_app; split);
      first [exact Hquiet | repeat constructor; event_side].
Qed.

(** C2, as the code has it: [main] runs the first two entities of the
    roster through the pipeline, in order, and no other; a roster of one
    or two entities is processed whole. *)
Theorem main_processes_first_two (h w : list event) (r : result unit)
    (roster : list pystr) :
  main h = (w, r) →
  EvReadExcel INPUT_EXCEL_FILE (Ok roster) ∈ w →
  started w = take 2 roster
  ∧ (length roster ≤ 2 → started w = roster)%nat
  ∧ r = Ok tt.
Proof.
  intros Hrun Hin.
  assert (started w = take 2 roster ∧ r = Ok tt) as [Hst ->].
  2: { split; [done |]. split; [|done]. intros Hlen.
       by rewrite Hst, take_ge. }
  unfold main in Hrun.
  run_bind Hrun. run_bind Hrun. run_bind Hrun.
  apply bind_run in Hrun
    as [(e & Hload & ->) | (all & w1 & w2 & Hload & Hrun & ->)];
    apply load_all_entities_from_excel_run in Hload
      as (res & line & -> & [(roster' & -> & Hr) | (e' & -> & Hr)]);
    try (destruct Hr as [Hr _]; discriminate Hr).
  - destruct Hr as [[= <-] ->].
    apply main_after_loading in Hrun as (-> & Hst & Hquiet).
    split; [|done]. rewrite !started_app, Hst. simpl.
    in_trace Hin; [by simplify_eq |].
    exfalso. eapply Forall_forall in Hquiet; [|exact Hin]. by apply Hquiet.
  - destruct Hr as [[= ->] Hline].
    apply (main_after_loading []) in Hrun as (-> & Hst & Hquiet).
    exfalso. in_trace Hin.
    eapply Forall_forall in Hquiet; [|exact Hin]. by apply Hquiet.
Qed.

Lemma main_returns (h : list event) : (main h).2 = Ok tt.
Proof.
  destruct (main h) as [w r] eqn:Hrun. simpl. unfold main in Hrun.
  run_bind Hrun. run_bind Hrun. run_bind Hrun.
  apply bind_run in Hrun
    as [(e & Hload & ->) | (all & w1 & w2 & Hload & Hrun & ->)];
    apply load_all_entities_from_excel_run in Hload
      as (res & line & -> & [(roster' & -> & Hr) | (e' & -> & Hr)]);
    try (destruct Hr as [Hr _]; discriminate Hr).
  - destruct Hr as [[= <-] _].
    by apply main_after_loading in Hrun as (-> & _).
  - destruct Hr as [[= ->] _].
    by apply (main_after_loading []) in Hrun as (-> & _).
Qed.

(** C7: a failure of one entity's run does not leave the driver. The
    loop over the entities to process always returns normally and every
    entity of the sequence has its run begun, in order, whatever the
    runs before it did. When the run of the first entity raises, the
    loop prints the error and goes on with the remaining entities from
    the history so extended. [main] itself always returns normally. *)
Theorem process_all_isolates_failures
    (entities all_entities_list : list pystr) (h : list event) :
  (process_all entities all_entities_list h).2 = Ok tt
  ∧ started (process_all entities all_entities_list h).1 = entities
  ∧ (∀ entity_name rest w0 e,
       entities = entity_name :: rest →
       process_entity entity_name all_entities_list h = (w0, Raise e) →
       let caught :=
         w0 ++ [ EvPrint (MsgCriticalError entity_name e);
                 EvPrint MsgSkipping ] in
       process_all entities all_entities_list h
       = (caught ++ (process_all rest all_entities_list (h ++ caught)).1,
          (process_all rest all_entities_list (h ++ caught)).2))
  ∧ (main h).2 = Ok tt.
Proof.
  destruct (process_all_run entities all_entities_list h) as [Hr Hst].
  split; [done |]. split; [done |]. split; [|apply main_returns].
  intros entity_name rest w0 e -> Hrun caught.
  destruct (process_all_cons entity_name rest all_entities_list h)
    as (w1 & _ & [Hok | (e' & w0' & Hraise & ->)] & ->).
  - rewrite Hrun in Hok. discriminate Hok.
  - rewrite Hrun in Hraise. by injection Hraise as <- <-.
Qed.

End PipelineFacts.

(** ** Runs in the small world *)

Lemma process_entity_stops_without_information_witness :
  let run :=
    @process_entity Demo.runtime
      (Demo.world Demo.roster3 (utf8 "  ") [] true)
      (utf8 "重力坝") Demo.roster3 [] in
  run.2 = Ok tt
  ∧ Forall (λ ev, ¬ is_later_stage ev ∧ ¬ is_file_access ev) run.1.
Proof.
  intros run.
  destruct (@process_entity_stops_without_information Demo.runtime
              (Demo.world Demo.roster3 (utf8 "  ") [] true)
              (utf8 "重力坝") Demo.roster3 [] run.1 run.2
              (PList []) (utf8 "  "))
    as (Hr & _ & Hquiet).
  - apply surjective_pairing.
  - apply list_elem_of_lookup. exists 3%nat. vm_compute. reflexivity.
  - repeat constructor.
  - by split.
Defined.

Lemma save_json_to_file_without_entity_id_witness :
  let run :=
    @save_json_to_file Demo.runtime (Demo.world [] [] [] true)
      (PDict ∅) OUTPUT_DIR [] in
  run.2 = Ok tt
  ∧ ∃ ro, EvOpen (utf8 "output/unknown_entity.json") ro ∈ run.1.
Proof.
  intros run.
  destruct (@save_json_to_file_without_entity_id Demo.runtime
              (Demo.world [] [] [] true) ∅ OUTPUT_DIR [] run.1 run.2)
    as (_ & _ & Hopen & _).
  - apply lookup_empty.
  - apply surjective_pairing.
  - apply Hopen. intros e Hin. vm_compute in Hin. in_trace Hin.
Defined.

Lemma save_json_to_file_swallows_write_failure_witness :
  let run :=
    @process_entity Demo.runtime
      (Demo.world Demo.roster3 (utf8 "text") [] false)
      (utf8 "重力坝") Demo.roster3 [] in
  run.2 = Ok tt
  ∧ last run.1 = Some (EvPrint (MsgSuccessfullyProcessed (utf8 "重力坝"))).
Proof.
  intros run.
  apply (proj2 (@save_json_to_file_swallows_write_failure Demo.runtime
                  (Demo.world Demo.roster3 (utf8 "text") [] false))
           (utf8 "重力坝") Demo.roster3 [] run.1 run.2 Demo.PermissionError).
  - apply surjective_pairing.
  - left. exists (utf8 "output/unknown_entity.json").
    apply list_elem_of_lookup. exists 16%nat. vm_compute. reflexivity.
Defined.

Lemma process_all_isolates_failures_witness :
  let world := Demo.world Demo.roster3 (utf8 "text") [utf8 "重力坝"] true in
  let run :=
    @process_all Demo.runtime world
      [utf8 "重力坝"; utf8 "水库调度"] Demo.roster3 [] in
  let caught :=
    [ EvPrint (MsgProcessing (utf8 "重力坝"));
      EvPrint (MsgStage 1);
      EvLlm (QUERY_AUGMENTATION_PROMPT (utf8 "重力坝"))
        (Raise Demo.ConnectionError);
      EvPrint (MsgCriticalError (utf8 "重力坝") Demo.ConnectionError);
      EvPrint MsgSkipping ] in
  run = (caught ++ (@process_all Demo.runtime world
                      [utf8 "水库调度"] Demo.roster3 caught).1,
         (@process_all Demo.runtime world
            [utf8 "水库调度"] Demo.roster3 caught).2).
Proof.
  intros world run caught.
  destruct (@process_all_isolates_failures Demo.runtime world
              [utf8 "重力坝"; utf8 "水库调度"] Demo.roster3 [])
    as (_ & _ & Hstep & _).
  apply (Hstep (utf8 "重力坝") [utf8 "水库调度"]
           [ EvPrint (MsgProcessing (utf8 "重力坝"));
             EvPrint (MsgStage 1);
             EvLlm (QUERY_AUGMENTATION_PROMPT (utf8 "重力坝"))
               (Raise Demo.ConnectionError) ]
           Demo.ConnectionError).
  - reflexivity.
  - vm_compute. reflexivity.
Defined.

Lemma main_processes_first_two_witness :
  let run :=
    @main Demo.runtime (Demo.world Demo.roster3 (utf8 "text") [] true) [] in
  started run.1 = [utf8 "重力坝"; utf8 "水库调度"] ∧ run.2 = Ok tt.
Proof.
  intros run.
  destruct (@main_processes_first_two Demo.runtime
              (Demo.world Demo.roster3 (utf8 "text") [] true)
              [] run.1 run.2 Demo.roster3)
    as (Hst & _ & Hr).
  - apply surjective_pairing.
  - apply list_elem_of_lookup. exists 4%nat. vm_compute. reflexivity.
  - split; [exact Hst | exact Hr].
Defined.

(** C2, as stated, fails: with a roster of three entities the third is
    never run through the pipeline. *)
Lemma main_leaves_third_entity_out :
  ¬ (∀ (R : Runtime) (C : Collaborators) (h w : list event)
       (r : result unit) (roster : list pystr),
       main h = (w, r) →
       EvReadExcel INPUT_EXCEL_FILE (Ok roster) ∈ w →
       roster ≠ [] →
       ∀ entity_name, entity_name ∈ roster → entity_name ∈ started w).
Proof.
  intros Hclaim.
  pose (run := @main Demo.runtime
                 (Demo.world Demo.roster3 (utf8 "text") [] true) []).
  specialize (Hclaim Demo.runtime
                (Demo.world Demo.roster3 (utf8 "text") [] true)
                [] run.1 run.2 Demo.roster3).
  assert (utf8 "溢洪道" ∈ started run.1) as Hin.
  { apply Hclaim.
    - apply surjective_pairing.
    - apply list_elem_of_lookup. exists 4%nat. vm_compute. reflexivity.
    - discriminate.
    - apply list_elem_of_lookup. exists 2%nat. reflexivity. }
  vm_compute in Hin. in_trace Hin.
Qed.

(** * Further properties *)

(** ** The validator, beyond the verdict *)

Lemma check_required_first (required : list pystr) (d : gmap pystr pyval)
    (m : msg) :
  check_required required d = Some m →
  ∃ before key after,
    required = before ++ key :: after
    ∧ Forall (λ k, is_Some (d !! k)) before
    ∧ d !! key = None ∧ m = MsgMissingKey key.
Proof.
  induction required as [|k rest IH]; simpl; [done |].
  destruct (d !! k) as [v|] eqn:Hk.
  - intros (before & key & after & -> & Hb & Hkey & ->)%IH.
    exists (k :: before), key, after. split; [done |].
    split; [constructor; eauto | done].
  - intros [= <-]. exists [], k, rest. by repeat split.
Qed.

Lemma check_required_missing (required : list pystr) (d : gmap pystr pyval)
    (key : pystr) :
  key ∈ required → d !! key = None → is_Some (check_required required d).
Proof.
  intros Hin Hnone. destruct (check_required required d) eqn:E; [eauto |].
  apply check_required_None in E.
  eapply Forall_forall in E; [|exact Hin]. rewrite Hnone in E.
  by destruct E.
Qed.

(** When a required top-level key is missing, [validate_schema] returns
    [False], and the error it prints names the first key of the
    schema's required list that the record lacks: every required key
    written before it in the schema is present. *)
Theorem validate_schema_reports_first_missing_key (d : gmap pystr pyval)
    (key : pystr) :
  key ∈ schema_required MASTER_SCHEMA →
  d !! key = None →
  (validate_schema d).2 = false
  ∧ ∃ label before missing after,
      (validate_schema d).1 = [MsgValidating label; MsgMissingKey missing]
      ∧ schema_required MASTER_SCHEMA = before ++ missing :: after
      ∧ Forall (λ k, is_Some (d !! k)) before
      ∧ d !! missing = None.
Proof.
  intros Hin Hnone. unfold validate_schema.
  destruct (check_required_missing _ d key Hin Hnone) as [m Hm].
  rewrite Hm. split; [done |].
  apply check_required_first in Hm
    as (before & missing & after & Hreq & Hb & Hmiss & ->).
  by eexists _, before, missing, after.
Qed.

Lemma validate_schema_reports_first_missing_key_witness :
  (validate_schema (delete (utf8 "aliases")
     (delete (utf8 "relations") Demo.record_without_sub_type))).1
  = [ MsgValidating (PStr (utf8 "重力坝")); MsgMissingKey (utf8 "aliases") ].
Proof.
  destruct (validate_schema_reports_first_missing_key
              (delete (utf8 "aliases")
                 (delete (utf8 "relations") Demo.record_without_sub_type))
              (utf8 "relations"))
    as (_ & label & before & missing & after & Hlines & _).
  - apply list_elem_of_lookup. exists 8%nat. reflexivity.
  - vm_compute. reflexivity.
  - vm_compute. reflexivity.
Defined.

Lemma check_type_Some (key : pystr) (t : schema_type) (v : pyval) (m : msg) :
  check_type key t v = Some m →
  (t = TString ∧ is_str v = false ∧ m = MsgNotString key)
  ∨ (t = TArray ∧ is_list v = false ∧ m = MsgNotList key)
  ∨ (t = TObject ∧ is_dict v = false ∧ m = MsgNotDict key).
Proof.
  unfold check_type. destruct t; simpl.
  - destruct (is_str v); simpl; [done |]. intros [= <-]. by left.
  - destruct (is_list v); simpl; [done |]. intros [= <-]. right. by left.
  - destruct (is_dict v); simpl; [done |]. intros [= <-]. right. by right.
Qed.

Lemma check_types_Some (properties : list (pystr * schema))
    (d : gmap pystr pyval) (m : msg) :
  check_types properties d = Some m →
  ∃ key s v, (key, s) ∈ properties ∧ d !! key = Some v
             ∧ check_type key (schema_type_of s) v = Some m.
Proof.
  induction properties as [|[k s] rest IH]; simpl; [done |].
  destruct (d !! k) as [v|] eqn:Hk.
  - destruct (check_type k (schema_type_of s) v) as [m'|] eqn:Et.
    + intros [= <-]. exists k, s, v. split; [apply list_elem_of_here | done].
    + intros (key & s' & v' & Hin & Hrest)%IH.
      exists key, s', v'. split; [by apply list_elem_of_further | done].
  - intros (key & s' & v' & Hin & Hrest)%IH.
    exists key, s', v'. split; [by apply list_elem_of_further | done].
Qed.

(** Every rejection is explained by the line printed with it. When
    [validate_schema] returns [False] it has printed two lines, and the
    second names either a required key the record lacks, or a key the
    record has whose value is not of the type the schema declares for
    it. *)
Theorem validate_schema_rejection_explained (d : gmap pystr pyval) :
  (validate_schema d).2 = false →
  ∃ label m,
    (validate_schema d).1 = [MsgValidating label; m]
    ∧ ((∃ key, m = MsgMissingKey key
               ∧ key ∈ schema_required MASTER_SCHEMA ∧ d !! key = None)
       ∨ (∃ key v, d !! key = Some v
            ∧ ((m = MsgNotString key ∧ declared key TString
                ∧ is_str v = false)
               ∨ (m = MsgNotList key ∧ declared key TArray
                  ∧ is_list v = false)
               ∨ (m = MsgNotDict key ∧ declared key TObject
                  ∧ is_dict v = false)))).
Proof.
  unfold validate_schema.
  destruct (check_required _ d) as [m|] eqn:Er.
  { intros _. eexists _, m. split; [done |]. left.
    apply check_required_first in Er
      as (before & key & after & Hreq & _ & Hnone & ->).
    exists key. split; [done |]. split; [|done].
    rewrite Hreq. apply elem_of_app. right. apply list_elem_of_here. }
  destruct (check_types _ d) as [m|] eqn:Et; [|done].
  intros _. eexists _, m. split; [done |]. right.
  apply check_types_Some in Et as (key & s & v & Hin & Hv & Hm).
  exists key, v. split; [done |].
  apply check_type_Some in Hm as [(Ht & Hx & ->) | [(Ht & Hx & ->) | (Ht & Hx & ->)]].
  - left. split; [done |]. split; [by exists s | done].
  - right. left. split; [done |]. split; [by exists s | done].
  - right. right. split; [done |]. split; [by exists s | done].
Qed.

Lemma validate_schema_rejection_explained_witness :
  ∃ label m,
    (validate_schema
       (<[utf8 "aliases" := PStr (utf8 "坝")]> Demo.record_without_sub_type)).1
    = [MsgValidating label; m].
Proof.
  destruct (validate_schema_rejection_explained
              (<[utf8 "aliases" := PStr (utf8 "坝")]>
                 Demo.record_without_sub_type))
    as (label & m & Hlines & _).
  - vm_compute. reflexivity.
  - by exists label, m.
Defined.

(** ** Assembly followed by validation *)

Section AssembleThenValidate.
Context `{Runtime}.

Lemma dict_get_test (info : gmap pystr pyval) (key : string) (dflt : pyval)
    (test : pyval -> bool) :
  test dflt = true →
  test (dict_get info (utf8 key) dflt) = true ↔ optional_ok info key test.
Proof.
  intros Hd. unfold dict_get, optional_ok.
  destruct (info !! utf8 key) as [v|]; split; try done.
  - by intros Hv v' [= <-].
  - intros Hv. by apply Hv.
Qed.

(** The record [assemble_json] builds passes [validate_schema] exactly
    when [relations] is a list and each optional key the info mapping
    carries has the type the schema declares: a list for [aliases], a
    string for [description] and [background_context], a mapping for
    [entity_type] and [attributes]. The label, the source file and the
    identifier never cause a rejection. *)
Theorem assembled_record_valid_iff (label source_file : pystr)
    (info : gmap pystr pyval) (relations : pyval) :
  (validate_schema (assemble_json label source_file info relations).2).2 = true
  ↔ is_list relations = true
    ∧ optional_ok info "aliases" is_list
    ∧ optional_ok info "description" is_str
    ∧ optional_ok info "background_context" is_str
    ∧ optional_ok info "entity_type" is_dict
    ∧ optional_ok info "attributes" is_dict.
Proof.
  rewrite validate_schema_shapes.
  destruct (assemble_json_lookup label source_file info relations)
    as (Hid & Hlabel & Hal & Hsrc & Hdesc & Hbg & Hty & Hattr & Hrel).
  unfold has_shape. cbv zeta in *.
  rewrite Hid, Hlabel, Hal, Hsrc, Hdesc, Hbg, Hty, Hattr, Hrel.
  rewrite <- (dict_get_test info "aliases" (PList []) is_list) by done.
  rewrite <- (dict_get_test info "description" (PStr []) is_str) by done.
  rewrite <- (dict_get_test info "background_context" (PStr []) is_str)
    by done.
  rewrite <- (dict_get_test info "entity_type" (PDict ∅) is_dict) by done.
  rewrite <- (dict_get_test info "attributes" (PDict ∅) is_dict) by done.
  split.
  - intros (_ & _ & (?&[= <-]&?) & _ & (?&[= <-]&?) & (?&[= <-]&?)
            & (?&[= <-]&?) & (?&[= <-]&?) & (?&[= <-]&?)).
    done.
  - intros (? & ? & ? & ? & ? & ?).
    repeat split; eexists; (split; [reflexivity | done]).
Qed.

End AssembleThenValidate.

Lemma assembled_record_valid_iff_witness :
  (validate_schema
     (assemble_json (H := Demo.runtime) (utf8 "重力坝") SOURCE_FILENAME
        {[ utf8 "description" := PStr (utf8 "坝") ]} (PList [])).2).2 = true.
Proof.
  apply (assembled_record_valid_iff (H := Demo.runtime)).
  split; [reflexivity |].
  repeat split; intros v Hv; vm_compute in Hv;
    first [discriminate Hv | by injection Hv as <-].
Defined.

(** ** The storage writer and the roster loader *)

(** Every case of a run of the storage writer, by unfolding. *)
Ltac save_cases Hrun :=
  unfold save_json_to_file, mbind, M_bind, bind, mret, M_ret, ret, ask,
    call, py_get, raise, try_except, print in Hrun;
  cbn beta iota zeta delta [negb fst snd app] in Hrun;
  repeat match type of Hrun with
         | context [path_exists ?h ?d] =>
             let E := fresh "Hexists" in
             destruct (path_exists h d) eqn:E;
             cbn beta iota zeta delta [negb fst snd app] in Hrun
         | context [match ?o with Ok _ => _ | Raise _ => _ end] =>
             let E := fresh "Hanswer" in
             destruct o as [[]|?] eqn:E;
             cbn beta iota zeta delta [negb fst snd app] in Hrun
         end;
  first [discriminate Hrun | injection Hrun as <- <- | injection Hrun as <-].

Section StorageFacts.
Context `{Runtime} `{Collaborators}.

Lemma path_join_absolute (a b : pystr) :
  path_join a (0x2F :: b) = 0x2F :: b.
Proof.
  unfold path_join. change (utf8 "/") with [0x2F].
  by destruct b.
Qed.

(** The file the storage writer touches is named after the string
    stored under [entity_id]: every opening and every dump of the call
    is on [os.path.join(output_dir, entity_id + ".json")], and what is
    dumped is the record itself. For a relative identifier and a
    directory name without a trailing slash that path is
    [output_dir/entity_id.json]. *)
Theorem save_json_to_file_keyed_by_entity_id (d : gmap pystr pyval)
    (entity_id output_dir : pystr) (h w : list event) (r : result unit) :
  d !! utf8 "entity_id" = Some (PStr entity_id) →
  save_json_to_file (PDict d) output_dir h = (w, r) →
  let filepath := path_join output_dir (entity_id ++ utf8 ".json") in
  (∀ p ro, EvOpen p ro ∈ w → p = filepath)
  ∧ (∀ p v rd, EvDump p v rd ∈ w → p = filepath ∧ v = PDict d)
  ∧ (startswith entity_id (utf8 "/") = false →
     output_dir ≠ [] → endswith output_dir (utf8 "/") = false →
     filepath = output_dir ++ utf8 "/" ++ entity_id ++ utf8 ".json").
Proof.
  intros Hid Hrun filepath.
  apply save_json_to_file_run in Hrun. unfold dict_get in Hrun.
  rewrite Hid in Hrun. cbv zeta in Hrun. cbn [format_value] in Hrun.
  fold filepath in Hrun.
  split; [|split].
  - intros p ro Hin.
    destruct Hrun as [(e & -> & ->) | (pre & tail & -> & -> & Hpre & Htail)];
      [in_trace Hin |].
    destruct Hpre as [-> | ->];
      destruct Htail as [-> | [(e & ->) | (e & ->)]];
      in_trace Hin; congruence.
  - intros p v rd Hin.
    destruct Hrun as [(e & -> & ->) | (pre & tail & -> & -> & Hpre & Htail)];
      [in_trace Hin |].
    destruct Hpre as [-> | ->];
      destruct Htail as [-> | [(e & ->) | (e & ->)]];
      in_trace Hin; by simplify_eq.
  - intros Hrel Hdir Hslash. unfold filepath, path_join.
    assert (startswith (entity_id ++ utf8 ".json") (utf8 "/") = false) as ->.
    { destruct entity_id as [|c rest]; [reflexivity |].
      change (utf8 "/") with [0x2F] in *. cbn [app startswith] in *.
      destruct (0x2F =? c); [|done]. by destruct rest. }
    destruct output_dir as [|c dir]; [done |]. by rewrite Hslash.
Qed.

(** An identifier that begins with a slash takes the file out of the
    output directory: the writer then opens [entity_id + ".json"]
    itself, whatever [output_dir] is. *)
Theorem save_json_to_file_absolute_entity_id (d : gmap pystr pyval)
    (name output_dir : pystr) (h w : list event) (r : result unit) :
  d !! utf8 "entity_id" = Some (PStr (0x2F :: name)) →
  save_json_to_file (PDict d) output_dir h = (w, r) →
  (∀ e, EvMakedirs output_dir (Raise e) ∉ w) →
  (∃ ro, EvOpen (0x2F :: name ++ utf8 ".json") ro ∈ w)
  ∧ (∀ p ro, EvOpen p ro ∈ w → p = 0x2F :: name ++ utf8 ".json").
Proof.
  intros Hid Hrun Hdir.
  apply save_json_to_file_run in Hrun. unfold dict_get in Hrun.
  rewrite Hid in Hrun. cbv zeta in Hrun. cbn [format_value] in Hrun.
  change ((0x2F :: name) ++ utf8 ".json")
    with (0x2F :: (name ++ utf8 ".json")) in Hrun.
  rewrite path_join_absolute in Hrun.
  destruct Hrun as [(e & -> & ->) | (pre & tail & -> & -> & Hpre & Htail)].
  { exfalso. eapply Hdir. apply list_elem_of_here. }
  destruct Hpre as [-> | ->];
    destruct Htail as [-> | [(e & ->) | (e & ->)]]; cbn [app].
  all: split;
    [ eexists; apply list_elem_of_lookup;
      (exists 1%nat + exists 2%nat); reflexivity
    | intros p ro Hin; in_trace Hin; congruence ].
Qed.

(** The output directory is created only when it does not exist yet,
    and before anything else; when creating it raises, the exception
    leaves [save_json_to_file] with nothing else done: this failure is
    not caught. *)
Theorem save_json_to_file_directory (json_data : pyval) (output_dir : pystr)
    (h w : list event) (r : result unit) :
  save_json_to_file json_data output_dir h = (w, r) →
  (path_exists h output_dir = true → Forall (λ ev, ¬ is_makedirs ev) w)
  ∧ (path_exists h output_dir = false →
     ∃ answer rest, w = EvMakedirs output_dir answer :: rest
                    ∧ Forall (λ ev, ¬ is_makedirs ev) rest)
  ∧ (∀ e, EvMakedirs output_dir (Raise e) ∈ w →
     w = [EvMakedirs output_dir (Raise e)] ∧ r = Raise e).
Proof.
  intros Hrun.
  destruct json_data; save_cases Hrun.
  all: split; [|split].
  all: try (intros [=]; fail).
  all: try (intros _; repeat constructor; event_side).
  all: try (intros _; eexists _, _; split; [reflexivity |];
            repeat constructor; event_side).
  all: intros e' Hin; in_trace Hin; by simplify_eq.
Qed.


(** The roster loader never raises. It returns the column it read, or
    the empty list when reading raised; a [FileNotFoundError] is
    reported as a missing file and any other exception with its text. *)
Theorem load_all_entities_from_excel_never_raises (filepath : pystr)
    (h w : list event) (r : result (list pystr)) :
  load_all_entities_from_excel filepath h = (w, r) →
  ∃ answer line,
    w = [ EvPrint (MsgLoading filepath); EvReadExcel filepath answer;
          EvPrint line ]
    ∧ match answer with
      | Ok roster => r = Ok roster ∧ line = MsgFound (length roster)
      | Raise e =>
          r = Ok []
          ∧ line = (if String.eqb (exn_class e) "FileNotFoundError"
                    then MsgFileNotFound filepath
                    else MsgExcelError e)
      end.
Proof.
  unfold load_all_entities_from_excel, mbind, M_bind, bind, try_except,
    call, print, mret, M_ret, ret, is_FileNotFoundError.
  simpl. destruct (read_excel_column _ filepath) as [roster|e]; simpl.
  - intros [= <- <-]. by eexists _, _.
  - destruct (String.eqb (exn_class e) "FileNotFoundError") eqn:E; simpl;
      intros [= <- <-]; eexists (Raise e), _; (split; [done |]);
      by rewrite E.
Qed.

End StorageFacts.

Lemma save_json_to_file_keyed_by_entity_id_witness :
  let run :=
    @save_json_to_file Demo.runtime (Demo.world [] [] [] true)
      (PDict Demo.record_without_sub_type) OUTPUT_DIR [] in
  Forall (λ ev, match ev with
                | EvOpen p _ => p = utf8 "output/ZhongLiBa.json"
                | _ => True
                end) run.1.
Proof.
  intros run.
  destruct (@save_json_to_file_keyed_by_entity_id Demo.runtime
              (Demo.world [] [] [] true) Demo.record_without_sub_type
              (utf8 "ZhongLiBa") OUTPUT_DIR [] run.1 run.2)
    as (Hopen & _ & Hpath).
  - vm_compute. reflexivity.
  - apply surjective_pairing.
  - apply Forall_forall. intros ev Hin. destruct ev; try exact I.
    rewrite (Hopen _ _ Hin). apply Hpath; done.
Defined.

Lemma save_json_to_file_absolute_entity_id_witness :
  let run :=
    @save_json_to_file Demo.runtime (Demo.world [] [] [] true)
      (PDict {[ utf8 "entity_id" := PStr (utf8 "/tmp/x") ]}) OUTPUT_DIR [] in
  ∃ ro, EvOpen (utf8 "/tmp/x.json") ro ∈ run.1.
Proof.
  intros run.
  destruct (@save_json_to_file_absolute_entity_id Demo.runtime
              (Demo.world [] [] [] true)
              {[ utf8 "entity_id" := PStr (utf8 "/tmp/x") ]}
              (utf8 "tmp/x") OUTPUT_DIR [] run.1 run.2)
    as (Hopen & _).
  - vm_compute. reflexivity.
  - apply surjective_pairing.
  - intros e Hin. vm_compute in Hin. in_trace Hin.
  - exact Hopen.
Defined.

Lemma save_json_to_file_directory_witness :
  let run :=
    @save_json_to_file Demo.runtime (Demo.world [] [] [] true)
      (PDict ∅) OUTPUT_DIR [EvMakedirs OUTPUT_DIR (Ok tt)] in
  Forall (λ ev, ¬ is_makedirs ev) run.1.
Proof.
  intros run.
  destruct (@save_json_to_file_directory Demo.runtime
              (Demo.world [] [] [] true) (PDict ∅) OUTPUT_DIR
              [EvMakedirs OUTPUT_DIR (Ok tt)] run.1 run.2)
    as (Hthere & _).
  - apply surjective_pairing.
  - apply Hthere. vm_compute. reflexivity.
Defined.


Lemma load_all_entities_from_excel_never_raises_witness :
  (@load_all_entities_from_excel (Demo.world Demo.roster3 [] [] true)
     INPUT_EXCEL_FILE []).2 = Ok Demo.roster3.
Proof.
  destruct (@load_all_entities_from_excel_never_raises
              (Demo.world Demo.roster3 [] [] true) INPUT_EXCEL_FILE []
              [ EvPrint (MsgLoading INPUT_EXCEL_FILE);
                EvReadExcel INPUT_EXCEL_FILE (Ok Demo.roster3);
                EvPrint (MsgFound 3) ]
              (Ok Demo.roster3))
    as (answer & line & Hw & Hanswer).
  - reflexivity.
  - reflexivity.
Defined.

(** ** More on the run of one entity *)

Lemma say_run {A} (p : list msg * A) h w r :
  say p h = (w, r) → w = map EvPrint p.1 ∧ r = Ok p.2.
Proof. unfold say. by intros [= <- <-]. Qed.

Lemma print_result (m : msg) h w r :
  print m h = (w, r) → w = [EvPrint m] ∧ r = Ok tt.
Proof. unfold print. by intros [= <- <-]. Qed.

Lemma call_result {A} (ev : result A -> event) oracle h w (r : result A) :
  call ev oracle h = (w, r) → w = [ev r].
Proof. unfold call. by intros [= <- <-]. Qed.

Lemma loads_result `{Runtime} (s : pystr) h w r :
  loads s h = (w, r) → w = [] ∧ json_loads s = r.
Proof. unfold loads. by intros [= <- <-]. Qed.

Lemma raise_result {A} (e : exn) h w (r : result A) :
  raise e h = (w, r) → w = [] ∧ r = Raise e.
Proof. unfold raise. by intros [= <- <-]. Qed.

(** The lines and the verdict of [validate_schema] go together. *)
Lemma validate_schema_outcome (d : gmap pystr pyval) :
  ∃ label m,
    (validate_schema d).1 = [MsgValidating label; m]
    ∧ is_verdict m
    ∧ ((validate_schema d).2 = true ↔ m = MsgValidationSuccessful).
Proof.
  unfold validate_schema.
  destruct (check_required _ d) as [m|] eqn:Er.
  { eexists _, m. split; [done |].
    apply check_required_first in Er as (?&?&?&_&_&_&->). by split. }
  destruct (check_types _ d) as [m|] eqn:Et.
  { eexists _, m. split; [done |].
    pose proof (check_types_verdict _ _ _ Et) as Hv.
    apply check_types_Some in Et as (?&?&?&_&_&Hm).
    apply check_type_Some in Hm as [(_&_&->) | [(_&_&->) | (_&_&->)]];
      by split. }
  by eexists _, _.
Qed.

Lemma trace_quiet (P : event -> Prop) (w : list event) :
  Forall (λ ev, ¬ P ev) w → ¬ Exists P w.
Proof.
  intros Hall (ev & Hin & Hev)%Exists_exists.
  eapply Forall_forall in Hall; [|exact Hin]. by apply Hall.
Qed.

(** One step of a run of the pipeline: a sequence splits into the run
    of its first computation and the rest; a test is decided; a [get] on
    a value that is not a mapping raises. *)
Ltac run_head Hm :=
  first
    [ apply print_result in Hm as [-> Hm];
      first [discriminate Hm | clear Hm]
    | apply loads_result in Hm as [-> Hm]
    | unfold llm in Hm; apply call_result in Hm as ->
    | apply call_result in Hm as ->
    | apply say_run in Hm as [-> Hm];
      first [discriminate Hm | injection Hm as Hm]
    | idtac ].

Lemma prints_all (P : event -> Prop) (lines : list msg) :
  (∀ m, P (EvPrint m)) → Forall P (map EvPrint lines).
Proof. intros Hm. induction lines; constructor; auto. Qed.

(** A property of every event of a trace that is written out, up to
    the lines of the pure functions and the part a hypothesis covers. *)
Ltac trace_all :=
  cbn [app];
  repeat first
    [ apply Forall_nil_2
    | eassumption
    | apply Forall_cons; split; [event_side |]
    | apply Forall_app; split
    | apply prints_all; intros ?; event_side ].

(** Membership in a trace that is written out. *)
Ltac trace_in :=
  cbn [app map];
  repeat first
    [ apply list_elem_of_here
    | apply list_elem_of_further
    | apply elem_of_app; right ].

Ltac run_step Hrun :=
  lazymatch type of Hrun with
  | (?m ≫= ?f) ?h = _ =>
      let Hm := fresh "Hhead" in
      apply bind_run in Hrun as [(? & Hm & ->) | (? & ? & ? & Hm & Hrun & ->)];
      run_head Hm; cbv zeta in *
  | py_get ?v _ ?h = _ =>
      tryif is_var v
      then destruct v
      else (let E := fresh "Hget" in destruct v eqn:E);
      cbn [py_get] in Hrun;
      try (apply raise_result in Hrun as [-> ->])
  | (if ?b then _ else _) ?h = _ =>
      let E := fresh "Htest" in destruct b eqn:E
  | print _ _ = _ => apply print_result in Hrun as [-> ->]
  end.

Ltac run_pipeline Hrun :=
  unfold process_entity in Hrun; repeat run_step Hrun.

Section EntityRunFacts.
Context `{Runtime} `{Collaborators}.

(** No record is written unless the assembled record passed
    [validate_schema] and the correction stage answered: a run that
    opened or dumped a file has printed the validation success and
    received a response to its final prompt, and has not reported a
    schema failure. *)
Theorem process_entity_persists_only_validated
    (entity_name : pystr) (all_entities_list : list pystr)
    (h w : list event) (r : result unit) :
  process_entity entity_name all_entities_list h = (w, r) →
  Exists is_file_access w →
  EvPrint MsgValidationSuccessful ∈ w
  ∧ (∃ json_data response,
       EvLlm (FINAL_VALIDATION_PROMPT entity_name json_data) (Ok response) ∈ w)
  ∧ EvPrint (MsgSchemaFailed entity_name) ∉ w.
Proof.
  intros Hrun Hacc. run_pipeline Hrun.
  all: try (exfalso; eapply trace_quiet; [|exact Hacc]; trace_all; fail).
  - exfalso. apply save_json_to_file_raise in Hhead6.
    eapply trace_quiet; [|exact Hacc]. trace_all.
  - pose proof (save_json_to_file_emits x15 OUTPUT_DIR) as Hsave.
    match type of Hhead6 with
    | _ ?h' = _ => specialize (Hsave h'); rewrite Hhead6 in Hsave
    end.
    destruct (validate_schema_outcome x12) as (label & m & Hlines & _ & Hm).
    rewrite Hlines in *. subst x13. apply negb_false_iff, Hm in Htest0 as ->.
    split; [trace_in | split; [eexists _, _; trace_in |]].
    intros Hin. in_trace Hin.
    apply elem_of_app in Hin as [Hin | Hin]; [|in_trace Hin].
    eapply Forall_forall in Hsave; [|exact Hin]. exact Hsave.
Qed.

Lemma save_json_to_file_ok (json_data : pyval) (output_dir : pystr)
    (h w : list event) (a : unit) :
  save_json_to_file json_data output_dir h = (w, Ok a) →
  is_dict json_data = true
  ∧ (∀ p v rd, EvDump p v rd ∈ w → v = json_data)
  ∧ Forall is_storage_event w.
Proof.
  destruct a. intros Hrun. split; [|split].
  - destruct json_data; [save_cases Hrun.. | done].
  - intros p v rd Hin.
    destruct json_data; save_cases Hrun; in_trace Hin; by simplify_eq.
  - pose proof (save_json_to_file_emits json_data output_dir h) as Hall.
    by rewrite Hrun in Hall.
Qed.

(** Decomposing the membership of an event in a trace. *)
Ltac trace_split Hin :=
  cbn [app] in Hin;
  repeat first
    [ apply elem_of_nil in Hin; destruct Hin
    | apply elem_of_cons in Hin as [Hin | Hin]; [try discriminate Hin |]
    | apply elem_of_app in Hin as [Hin | Hin]
    | apply list_elem_of_In, in_map_iff in Hin as (? & Hin & _);
      discriminate Hin ].

(** What is persisted is the answer of the correction stage, as
    decoded, and not the record that was validated: whenever a run dumps
    a value into a file, that value is [json.loads] of the response to
    the final prompt, the prompt carried the assembled record, and it is
    the assembled record, not the dumped value, that passed
    [validate_schema]. *)
Theorem process_entity_dumps_correction_output
    (entity_name : pystr) (all_entities_list : list pystr)
    (h w : list event) (r : result unit)
    (p : pystr) (v : pyval) (rd : result unit) :
  process_entity entity_name all_entities_list h = (w, r) →
  EvDump p v rd ∈ w →
  ∃ record response,
    EvLlm (FINAL_VALIDATION_PROMPT entity_name
             (json_dumps (Some 2%nat) (PDict record))) (Ok response) ∈ w
    ∧ json_loads response = Ok v
    ∧ is_dict v = true
    ∧ (validate_schema record).2 = true.
Proof.
  intros Hrun Hin.
  assert (Exists is_file_access w) as Hacc
    by (apply Exists_exists; by exists (EvDump p v rd)).
  run_pipeline Hrun.
  all: try (exfalso; eapply trace_quiet; [|exact Hacc]; trace_all; fail).
  - exfalso. apply save_json_to_file_raise in Hhead6.
    eapply trace_quiet; [|exact Hacc]. trace_all.
  - apply save_json_to_file_ok in Hhead6 as (Hdict & Hdump & Hsave).
    assert (v = x15) as ->.
    { trace_split Hin. by eapply Hdump. }
    exists x12, x14. split; [trace_in |]. split; [done |]. split; [done |].
    subst x13. by apply negb_false_iff in Htest0.
Qed.

Lemma llm_prompts_app (w1 w2 : list event) :
  llm_prompts (w1 ++ w2) = llm_prompts w1 ++ llm_prompts w2.
Proof.
  induction w1 as [|ev w1 IH]; [done |].
  destruct ev; simpl; by rewrite ?IH.
Qed.

Lemma llm_prompts_prints (lines : list msg) :
  llm_prompts (map EvPrint lines) = [].
Proof. by induction lines. Qed.

Lemma llm_prompts_storage (w : list event) :
  Forall is_storage_event w → llm_prompts w = [].
Proof.
  induction 1 as [|ev w Hev _ IH]; [done |]. by destruct ev.
Qed.

Lemma save_json_to_file_no_prompt (json_data : pyval) (output_dir : pystr)
    (h w : list event) (r : result unit) :
  save_json_to_file json_data output_dir h = (w, r) → llm_prompts w = [].
Proof.
  intros Hrun. apply llm_prompts_storage.
  pose proof (save_json_to_file_emits json_data output_dir h) as Hall.
  by rewrite Hrun in Hall.
Qed.

(** The stages of a run follow one another in the fixed order and none
    is repeated: the prompts a run sends are those of stages 1, 2, 3, 4
    and 5 in this order, cut short where the run ended, and each is
    about the entity being processed. *)
Theorem process_entity_stage_order
    (entity_name : pystr) (all_entities_list : list pystr)
    (h w : list event) (r : result unit) :
  process_entity entity_name all_entities_list h = (w, r) →
  map prompt_stage (llm_prompts w) = seq 1 (length (llm_prompts w))
  ∧ (length (llm_prompts w) ≤ 5)%nat
  ∧ Forall (λ p, prompt_entity p = entity_name) (llm_prompts w).
Proof.
  intros Hrun. run_pipeline Hrun.
  all: try match goal with
       | Hs : save_json_to_file _ _ _ = _ |- _ =>
           apply save_json_to_file_no_prompt in Hs
       end.
  all: rewrite ?llm_prompts_app, ?llm_prompts_prints; cbn [llm_prompts app];
       rewrite ?llm_prompts_prints;
       try match goal with Hs : llm_prompts _ = [] |- _ => rewrite Hs end;
       cbn [app length map prompt_stage seq];
       (split; [reflexivity |]); (split; [lia |]);
       repeat constructor.
Qed.



(** Membership of a request in a run, with the part of the trace the
    storage writer produced set aside. *)
Ltac request_in Hin :=
  try match goal with
      | Hs : save_json_to_file ?v ?d ?h' = _ |- _ =>
          let Hall := fresh "Hstorage" in
          pose proof (save_json_to_file_emits v d h') as Hall;
          rewrite Hs in Hall; cbn [fst] in Hall
      end;
  trace_split Hin;
  try match goal with
      | Hall : Forall is_storage_event ?w, Hx : _ ∈ ?w |- _ =>
          exfalso; eapply Forall_forall in Hall; [|exact Hx]; exact Hall
      end.

Ltac same_request Hin := injection Hin; intros; subst.


(** The type named in the attribute prompt is the [sub_type] of the
    typing response, or ["Unknown"] when the response has no
    [entity_type] or the [entity_type] has no [sub_type]. *)
Theorem process_entity_attribute_prompt_type
    (entity_name : pystr) (all_entities_list : list pystr)
    (h w : list event) (r : result unit)
    (entity_type_name : pyval) (answer : result pystr) :
  process_entity entity_name all_entities_list h = (w, r) →
  EvLlm (ATTRIBUTE_EXTRACTION_PROMPT entity_name entity_type_name) answer ∈ w →
  ∃ raw_text response info entity_type,
    EvLlm (TYPING_AND_DEFINITION_PROMPT entity_name raw_text) (Ok response) ∈ w
    ∧ json_loads response = Ok (PDict info)
    ∧ dict_get info (utf8 "entity_type") (PDict ∅) = PDict entity_type
    ∧ entity_type_name
      = dict_get entity_type (utf8 "sub_type") (PStr (utf8 "Unknown")).
Proof.
  intros Hrun Hin. run_pipeline Hrun.
  all: request_in Hin.
  all: same_request Hin.
  all: eexists _, _, _, _; split; [by trace_in |]; by repeat split.
Qed.

(** The record sent to the correction stage is the assembled one and
    has passed validation. It carries the entity's name as [label], the
    identifier derived from that name, and the roster file as
    [source_file]; its [attributes] are the decoded answer to the
    attribute prompt, which replaces any [attributes] of the typing
    response, and its [relations] the decoded answer to the relation
    prompt. *)
Theorem process_entity_final_prompt_record
    (entity_name : pystr) (all_entities_list : list pystr)
    (h w : list event) (r : result unit)
    (json_data : pystr) (answer : result pystr) :
  process_entity entity_name all_entities_list h = (w, r) →
  EvLlm (FINAL_VALIDATION_PROMPT entity_name json_data) answer ∈ w →
  ∃ record,
    json_data = json_dumps (Some 2%nat) (PDict record)
    ∧ (validate_schema record).2 = true
    ∧ record !! utf8 "label" = Some (PStr entity_name)
    ∧ record !! utf8 "entity_id"
      = Some (PStr (standardize_entity_id entity_name))
    ∧ record !! utf8 "source_file" = Some (PStr SOURCE_FILENAME)
    ∧ (∃ t response attributes,
         EvLlm (ATTRIBUTE_EXTRACTION_PROMPT entity_name t) (Ok response) ∈ w
         ∧ json_loads response = Ok attributes
         ∧ record !! utf8 "attributes" = Some attributes)
    ∧ (∃ roster response relations,
         EvLlm (RELATION_INFERENCE_PROMPT entity_name roster) (Ok response) ∈ w
         ∧ json_loads response = Ok relations
         ∧ record !! utf8 "relations" = Some relations).
Proof.
  intros Hrun Hin. run_pipeline Hrun.
  all: request_in Hin.
  all: same_request Hin.
  all: match goal with
       | Hvalid : negb (validate_schema ?rec).2 = false |- _ =>
           exists rec; apply negb_false_iff in Hvalid
       end.
  all: match goal with
       | |- context [assemble_json ?n ?s ?i ?rel] =>
           destruct (assemble_json_lookup n s i rel)
             as (Hid & Hlabel & _ & Hsrc & _ & _ & _ & Hattr & Hrel);
           cbv zeta in Hid, Hlabel, Hsrc, Hattr, Hrel;
           unfold dict_get in Hattr; rewrite lookup_insert_eq in Hattr
       end.
  all: split; [done |]; split; [done |]; split; [done |]; split; [done |];
       split; [done |]; split;
       eexists _, _, _; (split; [by trace_in |]); by split.
Qed.

(** The correction stage is trusted: whatever mapping its response
    decodes to is handed to the storage writer as it is, with no second
    validation. Unless creating the directory raised, the file of that
    mapping is opened, and once open the mapping is dumped into it. *)
Theorem process_entity_persists_correction_unchecked
    (entity_name : pystr) (all_entities_list : list pystr)
    (h w : list event) (r : result unit)
    (json_data response : pystr) (d : gmap pystr pyval) :
  process_entity entity_name all_entities_list h = (w, r) →
  EvLlm (FINAL_VALIDATION_PROMPT entity_name json_data) (Ok response) ∈ w →
  json_loads response = Ok (PDict d) →
  (∀ e, EvMakedirs OUTPUT_DIR (Raise e) ∉ w) →
  r = Ok tt
  ∧ ∃ p ro, EvOpen p ro ∈ w
            ∧ (ro = Ok tt → ∃ rd, EvDump p (PDict d) rd ∈ w).
Proof.
  intros Hrun Hin Hd Hdir. run_pipeline Hrun.
  all: request_in Hin.
  all: same_request Hin.
  all: try match goal with
       | H1 : json_loads ?s = _, H2 : json_loads ?s = _ |- _ =>
           rewrite H1 in H2;
           first [discriminate H2 | injection H2; intros; subst]
       end.
  all: match goal with
       | Hs : save_json_to_file _ _ _ = _ |- _ =>
           apply save_json_to_file_run in Hs; cbv zeta in Hs;
           destruct Hs as [(e & -> & Hr)
                          | (pre & tail & -> & Hr & Hpre & Htail)]
       end.
  all: try discriminate Hr.
  all: try (exfalso; eapply Hdir; by trace_in).
  all: split; [done |].
  all: destruct Hpre as [-> | ->];
       destruct Htail as [-> | [(e & ->) | (e & ->)]].
  all: eexists _, _; split;
       [ trace_in
       | first [ intros _; eexists; by trace_in | intros [=] ] ].
Qed.

End EntityRunFacts.

Lemma process_entity_persists_correction_unchecked_witness :
  let run :=
    @process_entity Demo.runtime
      (Demo.world Demo.roster3 (utf8 "text") [] true)
      (utf8 "重力坝") Demo.roster3 [] in
  run.2 = Ok tt
  ∧ (validate_schema ∅).2 = false
  ∧ ∃ p ro, EvOpen p ro ∈ run.1
            ∧ (ro = Ok tt → ∃ rd, EvDump p (PDict ∅) rd ∈ run.1).
Proof.
  intros run.
  destruct (@process_entity_persists_correction_unchecked Demo.runtime
              (Demo.world Demo.roster3 (utf8 "text") [] true)
              (utf8 "重力坝") Demo.roster3 [] run.1 run.2
              (utf8 "{}") (utf8 "{}") ∅)
    as [Hr Hopen].
  - apply surjective_pairing.
  - apply list_elem_of_lookup. exists 13%nat. vm_compute. reflexivity.
  - reflexivity.
  - intros e Hin. vm_compute in Hin. in_trace Hin.
  - split; [exact Hr |]. split; [reflexivity | exact Hopen].
Defined.

(** ** More on the driver *)

Ltac emits_auto :=
  repeat first
    [ apply emits_ret
    | apply emits_raise
    | apply emits_ask
    | apply emits_loads
    | apply emits_print; event_side
    | apply emits_call; intros ?; event_side
    | apply emits_say_validate; [intros ?; event_side | intros [] ?; event_side]
    | apply emits_say; simpl; repeat constructor; event_side
    | apply emits_bind; [|intros ?]
    | apply emits_try_except; [|intros ?]
    | apply emits_py_get; intros ?
    | match goal with
      | |- emits _ (if ?b then _ else _) => destruct b
      | |- emits _ (llm _) => unfold llm
      | |- emits _ (save_json_to_file _ _) => unfold save_json_to_file
      end
    | progress cbv zeta ].

Section DriverFacts.
Context `{Runtime} `{Collaborators}.

(** The only roster answer in a run of [main] is the loader's. *)
Lemma main_loaded (h w : list event) (r : result unit) :
  main h = (w, r) →
  ∃ answer line all_entities_list rest h',
    w = [ EvPrint MsgBannerRule; EvPrint MsgBannerStarting;
          EvPrint MsgBannerRule; EvPrint (MsgLoading INPUT_EXCEL_FILE);
          EvReadExcel INPUT_EXCEL_FILE answer; EvPrint line ] ++ rest
    ∧ is_idle (EvPrint line)
    ∧ (answer = Ok all_entities_list
       ∨ (∃ e, answer = Raise e) ∧ all_entities_list = [])
    ∧ match all_entities_list with
      | [] => print MsgNoEntities
      | _ =>
          let entities_to_process := take 2 all_entities_list in
          _ ← print (MsgFoundTotal (length all_entities_list)
                       (length entities_to_process));
          _ ← process_all entities_to_process all_entities_list;
          _ ← print MsgBannerRuleAfterBlank;
          _ ← print MsgBannerFinished;
          print MsgBannerRule
      end h' = (rest, r)
    ∧ (∀ a, EvReadExcel INPUT_EXCEL_FILE a ∈ w → a = answer).
Proof.
  intros Hrun. unfold main in Hrun.
  run_step Hrun. run_step Hrun. run_step Hrun.
  apply bind_run in Hrun
    as [(e & Hload & ->) | (all & w1 & w2 & Hload & Hrun & ->)];
    apply load_all_entities_from_excel_run in Hload
      as (answer & line & -> & Hanswer).
  { destruct Hanswer as [(? & _ & [=] & _) | (? & _ & [=] & _)]. }
  exists answer, line, all, w2. eexists. split; [reflexivity |].
  pose proof (main_after_loading _ _ _ _ Hrun) as (_ & _ & Hquiet).
  split; [|split; [|split; [exact Hrun |]]].
  - destruct Hanswer as [(? & _ & _ & ->) | (? & _ & _ & [-> | ->])]; done.
  - destruct Hanswer as [(roster & -> & [= ->] & _) | (e & -> & [= ->] & _)].
    + by left.
    + right. split; [by exists e | done].
  - intros a Hin. in_trace Hin; [by simplify_eq |].
    exfalso. eapply Forall_forall in Hquiet; [|exact Hin]. by apply Hquiet.
Qed.

(** When the roster is empty, or when reading it raised, [main] ends
    before any entity is processed: it prints that no entities were
    found and returns, with no request to a backend and no access to
    the output directory, and without the closing banner. *)
Theorem main_stops_on_empty_roster (h w : list event) (r : result unit) :
  main h = (w, r) →
  EvReadExcel INPUT_EXCEL_FILE (Ok []) ∈ w
  ∨ (∃ e, EvReadExcel INPUT_EXCEL_FILE (Raise e) ∈ w) →
  r = Ok tt
  ∧ last w = Some (EvPrint MsgNoEntities)
  ∧ Forall is_idle w.
Proof.
  intros Hrun Hread.
  apply main_loaded in Hrun
    as (answer & line & all & rest & h' & -> & Hline & Hanswer & Hrest & Hone).
  assert (all = []) as ->.
  { destruct Hread as [Hin | (e & Hin)]; apply Hone in Hin as <-;
      destruct Hanswer as [[=] | [(? & [=]) ?]]; by subst. }
  apply print_result in Hrest as [-> ->].
  split; [done |]. split; [done |]. repeat constructor. exact Hline.
Qed.

(** Every relation prompt of a run of [main] lists the whole roster as
    it was loaded, not only the entities that are processed. *)
Theorem main_relation_prompt_lists_whole_roster
    (h w : list event) (r : result unit) (roster : list pystr)
    (entity_name roster_text : pystr) (answer : result pystr) :
  main h = (w, r) →
  EvReadExcel INPUT_EXCEL_FILE (Ok roster) ∈ w →
  EvLlm (RELATION_INFERENCE_PROMPT entity_name roster_text) answer ∈ w →
  roster_text = json_dumps None (PList (map PStr roster)).
Proof.
  intros Hrun Hread Hin.
  apply main_loaded in Hrun
    as (ans & line & all & rest & h' & -> & Hline & Hanswer & Hrest & Hone).
  apply Hone in Hread as <-.
  destruct Hanswer as [[= <-] | [(? & [=]) ?]].
  assert (Forall (relation_prompt_roster
                    (json_dumps None (PList (map PStr roster)))) rest)
    as Hall.
  { match type of Hrest with
    | ?m _ = _ =>
        assert (emits (relation_prompt_roster
                         (json_dumps None (PList (map PStr roster)))) m)
          as Hem
    end.
    { destruct roster; [emits_auto |]. cbv zeta.
      apply emits_bind; [emits_auto | intros _].
      apply emits_bind; [|intros _; emits_auto].
      apply process_all_emits; [|intros; event_side].
      intros name. unfold process_entity. emits_auto. }
    specialize (Hem h'). by rewrite Hrest in Hem. }
  in_trace Hin.
  eapply Forall_forall in Hall; [|exact Hin]. exact Hall.
Qed.

End DriverFacts.

(** ** The prompts and the simulated backend *)

Lemma startswith_nil (s : pystr) : startswith s [] = true.
Proof. by destruct s. Qed.

Lemma startswith_app (a b m : pystr) :
  startswith a m = true → startswith (a ++ b) m = true.
Proof.
  revert m. induction a as [|x a IH]; intros [|y m]; simpl; try done.
  - intros _. apply startswith_nil.
  - intros [-> Hm]%andb_true_iff. by rewrite IH.
Qed.

Lemma contains_cons (x : N) (s m : pystr) :
  contains (x :: s) m = startswith (x :: s) m || contains s m.
Proof. reflexivity. Qed.

Lemma contains_app_l (a b m : pystr) :
  contains a m = true → contains (a ++ b) m = true.
Proof.
  induction a as [|x a IH].
  - destruct m; [|done]. intros _.
    destruct b; simpl; by rewrite ?startswith_nil.
  - rewrite <- app_comm_cons, !contains_cons.
    intros [Hs | Hc]%orb_true_iff.
    + apply (startswith_app _ b) in Hs.
      rewrite <- app_comm_cons in Hs. by rewrite Hs.
    + rewrite IH by done. apply orb_true_r.
Qed.

Lemma contains_app_r (a b m : pystr) :
  contains b m = true → contains (a ++ b) m = true.
Proof.
  intros Hb. induction a as [|x a IH]; [done |].
  rewrite <- app_comm_cons, contains_cons, IH. apply orb_true_r.
Qed.

(** A marker that occurs in one of the pieces of a text occurs in the
    text. *)
Ltac marker_in_piece :=
  repeat first
    [ apply contains_app_l; vm_compute; reflexivity
    | apply contains_app_r ];
  try (vm_compute; reflexivity).

Lemma Ok_eq {A : Type} (a b : A) : Ok a = Ok b → a = b.
Proof. by intros [= ->]. Qed.

Section Prompts.
Context `{Runtime}.

Lemma query_text (entity_name : pystr) :
  prompt_text (QUERY_AUGMENTATION_PROMPT entity_name)
  = Ok (take 85 QUERY_AUGMENTATION_PROMPT_text ++ entity_name
        ++ drop 98 QUERY_AUGMENTATION_PROMPT_text).
Proof. vm_compute. reflexivity. Qed.

Lemma typing_text (entity_name raw_text : pystr) :
  prompt_text (TYPING_AND_DEFINITION_PROMPT entity_name raw_text)
  = Ok (take 47 TYPING_AND_DEFINITION_PROMPT_text ++ entity_name
        ++ seg TYPING_AND_DEFINITION_PROMPT_text 60 82 ++ raw_text
        ++ seg TYPING_AND_DEFINITION_PROMPT_text 92 209 ++ entity_name
        ++ seg TYPING_AND_DEFINITION_PROMPT_text 222 585 ++ entity_name
        ++ drop 598 TYPING_AND_DEFINITION_PROMPT_text).
Proof. vm_compute. reflexivity. Qed.

Lemma attribute_text (entity_name : pystr) (entity_type : pyval) :
  prompt_text (ATTRIBUTE_EXTRACTION_PROMPT entity_name entity_type)
  = Ok (take 13 ATTRIBUTE_EXTRACTION_PROMPT_text ++ entity_name
        ++ seg ATTRIBUTE_EXTRACTION_PROMPT_text 26 35
        ++ format_value entity_type
        ++ drop 48 ATTRIBUTE_EXTRACTION_PROMPT_text).
Proof. vm_compute. reflexivity. Qed.

Lemma relation_text (entity_name all_entities_list : pystr) :
  prompt_text (RELATION_INFERENCE_PROMPT entity_name all_entities_list)
  = Ok (take 35 RELATION_INFERENCE_PROMPT_text ++ entity_name
        ++ seg RELATION_INFERENCE_PROMPT_text 48 136 ++ all_entities_list
        ++ seg RELATION_INFERENCE_PROMPT_text 155 231 ++ entity_name
        ++ seg RELATION_INFERENCE_PROMPT_text 244 350
        ++ 123 :: seg RELATION_INFERENCE_PROMPT_text 352 430
        ++ 125 :: drop 432 RELATION_INFERENCE_PROMPT_text).
Proof. vm_compute. reflexivity. Qed.

Lemma final_text (entity_name json_data : pystr) :
  prompt_text (FINAL_VALIDATION_PROMPT entity_name json_data)
  = Ok (take 132 FINAL_VALIDATION_PROMPT_text ++ entity_name
        ++ seg FINAL_VALIDATION_PROMPT_text 145 660 ++ json_data
        ++ [10]).
Proof. vm_compute. reflexivity. Qed.

(** Formatting a prompt never raises: the five templates are well
    formed and [main.py] passes every field they name, so whatever the
    entity name, the retrieved text, the type, the roster or the record
    contain, braces included, the call returns a text. *)
Theorem prompt_text_never_raises (p : prompt) :
  ∃ text, prompt_text p = Ok text.
Proof.
  destruct p; eexists;
    [ apply query_text | apply typing_text | apply attribute_text
    | apply relation_text | apply final_text ].
Qed.

End Prompts.

(** Searching for a single character. *)
Lemma startswith_char (c x : N) (s : pystr) :
  startswith (x :: s) [c] = (c =? x).
Proof. simpl. by rewrite startswith_nil, andb_true_r. Qed.

Lemma find_from_fresh (c : N) (a rest : pystr) (i : Z) :
  c ∉ a → find_from i (a ++ c :: rest) [c] = (i + Z.of_nat (length a))%Z.
Proof.
  revert i. induction a as [|x a IH]; intros i Hfresh.
  - cbn [app find_from]. rewrite startswith_char, N.eqb_refl.
    simpl. lia.
  - apply not_elem_of_cons in Hfresh as [Hx Ha].
    rewrite <- app_comm_cons. cbn [find_from].
    rewrite startswith_char.
    destruct (N.eqb_spec c x) as [-> | _]; [done |].
    rewrite IH by done. simpl length. lia.
Qed.

Lemma rfind_from_none (c : N) (b : pystr) (i : Z) :
  c ∉ b → rfind_from i b [c] = (-1)%Z.
Proof.
  revert i. induction b as [|x b IH]; intros i Hfresh; [done |].
  apply not_elem_of_cons in Hfresh as [Hx Hb].
  cbn [rfind_from]. rewrite IH by done. cbv zeta.
  rewrite startswith_char.
  by destruct (N.eqb_spec c x) as [-> | _].
Qed.

Lemma rfind_from_fresh (c : N) (a b : pystr) (i : Z) :
  (0 <= i)%Z → c ∉ b →
  rfind_from i (a ++ c :: b) [c] = (i + Z.of_nat (length a))%Z.
Proof.
  intros Hi Hfresh. revert i Hi. induction a as [|x a IH]; intros i Hi.
  - cbn [app rfind_from]. rewrite rfind_from_none by done. cbv zeta.
    rewrite startswith_char, N.eqb_refl. simpl. lia.
  - rewrite <- app_comm_cons. cbn [rfind_from].
    rewrite IH by lia. cbv zeta.
    destruct (Z.eqb_spec (i + 1 + Z.of_nat (length a)) (-1)) as [? | _];
      [lia |].
    simpl length. lia.
Qed.

Lemma slice_middle (a j b : pystr) :
  slice (a ++ j ++ b) (Z.of_nat (length a))
    (Z.of_nat (length a) + Z.of_nat (length j)) = j.
Proof.
  unfold slice, clip. rewrite !length_app. cbv zeta.
  destruct (Z.ltb_spec (Z.of_nat (length a)) 0) as [? | _]; [lia |].
  destruct (Z.ltb_spec (Z.of_nat (length a) + Z.of_nat (length j)) 0)
    as [? | _]; [lia |].
  rewrite !Z.min_l by lia.
  destruct (Z.ltb_spec (Z.of_nat (length a))
              (Z.of_nat (length a) + Z.of_nat (length j))) as [Hlt | Hge].
  - replace (Z.to_nat _) with (length j) by lia.
    rewrite Nat2Z.id, drop_app_length. apply take_app_length.
  - destruct j; [done | simpl in Hge; lia].
Qed.

Lemma fresh_check (c : N) (s : pystr) :
  forallb (fun x => negb (c =? x)) s = true → c ∉ s.
Proof.
  induction s as [|x s IH]; cbn [forallb].
  - intros _. apply not_elem_of_nil.
  - intros [Hx Hs]%andb_true_iff. apply not_elem_of_cons. split.
    + intros ->. by rewrite N.eqb_refl in Hx.
    + by apply IH.
Qed.

Section Backend.
Context `{Runtime} `{JsonDefault}.

(** For each of the first four stages, when the markers of the earlier
    stages do not occur in the formatted prompt, the simulated backend
    returns the answer it keeps for that stage: the marker it tests for
    the stage is part of the stage's own template, whatever the fields
    hold. *)
Theorem get_llm_response_routes_by_stage (p : prompt) (text : pystr)
    (answer : pyval) :
  prompt_text p = Ok text →
  earlier_branches_miss p text →
  canned_answer p = Some answer →
  (llm_api_module.get_llm_response text).2 = json_dumps_default answer.
Proof.
  intros Htext Hmiss Hanswer. unfold llm_api_module.get_llm_response.
  cbn [snd].
  destruct p; cbn [canned_answer] in Hanswer; try discriminate Hanswer;
    injection Hanswer as <-; cbn [earlier_branches_miss] in Hmiss.
  - rewrite query_text in Htext. apply Ok_eq in Htext as <-.
    replace (contains _ _) with true; [done |].
    symmetry. marker_in_piece.
  - rewrite Hmiss.
    rewrite typing_text in Htext. apply Ok_eq in Htext as <-.
    replace (contains _ (utf8 "Classification")) with true
      by (symmetry; marker_in_piece).
    replace (contains _ (utf8 "Definition")) with true
      by (symmetry; marker_in_piece).
    done.
  - destruct Hmiss as [-> ->].
    rewrite attribute_text in Htext. apply Ok_eq in Htext as <-.
    replace (contains _ _) with true; [done |].
    symmetry. marker_in_piece.
  - destruct Hmiss as (-> & -> & ->).
    rewrite relation_text in Htext. apply Ok_eq in Htext as <-.
    replace (contains _ _) with true; [done |].
    symmetry. marker_in_piece.
Qed.

(** The first test of the simulated backend wins over the stage: a
    prompt of any stage with a field that contains the phrase of the
    query stage is answered with the list of search queries. *)
Theorem get_llm_response_query_phrase_wins (p : prompt)
    (field text : pystr) :
  prompt_text p = Ok text →
  field ∈ prompt_fields p →
  contains field
    (utf8 "generate 5 specific and technical search engine queries")
  = true →
  (llm_api_module.get_llm_response text).2
  = json_dumps_default llm_api_module.QUERIES.
Proof.
  intros Htext Hfield Hphrase. unfold llm_api_module.get_llm_response.
  cbn [snd].
  replace (contains text _) with true; [done |]. symmetry.
  destruct p; cbn [prompt_fields] in Hfield;
    [ rewrite query_text in Htext | rewrite typing_text in Htext
    | rewrite attribute_text in Htext | rewrite relation_text in Htext
    | rewrite final_text in Htext ];
    apply Ok_eq in Htext as <-;
    repeat (apply elem_of_cons in Hfield as [-> | Hfield]);
    try (by apply elem_of_nil in Hfield);
    repeat first
      [ apply contains_app_l; exact Hphrase
      | apply contains_app_r ].
Qed.

(** The last stage gets its record back: for a record written between
    braces and an entity name without an opening brace, when the markers
    of the four earlier stages do not occur in the prompt, the answer of
    the simulated backend is the record, character for character. *)
Theorem get_llm_response_echoes_record (entity_name body text : pystr) :
  prompt_text (FINAL_VALIDATION_PROMPT entity_name (braced body)) = Ok text →
  earlier_branches_miss (FINAL_VALIDATION_PROMPT entity_name (braced body))
    text →
  123 ∉ entity_name →
  (llm_api_module.get_llm_response text).2 = braced body.
Proof.
  intros Htext Hmiss Hname.
  unfold llm_api_module.get_llm_response. cbn [snd].
  cbn [earlier_branches_miss] in Hmiss.
  destruct Hmiss as (-> & -> & -> & ->).
  rewrite final_text in Htext. apply Ok_eq in Htext as <-.
  replace (contains _ _) with true by (symmetry; marker_in_piece).
  set (f0 := take 132 FINAL_VALIDATION_PROMPT_text).
  set (f1 := seg FINAL_VALIDATION_PROMPT_text 145 660).
  change (braced body) with ([123] ++ body ++ [125]).
  change (utf8 "{") with [123]. change (utf8 "}") with [125].
  set (a := f0 ++ entity_name ++ f1).
  assert (Ha : 123 ∉ a).
  { unfold a. rewrite !elem_of_app. intros [Hin | [Hin | Hin]].
    - revert Hin. apply fresh_check. vm_compute. reflexivity.
    - done.
    - revert Hin. apply fresh_check. vm_compute. reflexivity. }
  assert (Hfind :
    find (f0 ++ entity_name ++ f1 ++ ([123] ++ body ++ [125]) ++ [10]) [123]
    = Z.of_nat (length a)).
  { unfold find.
    replace (f0 ++ entity_name ++ f1 ++ ([123] ++ body ++ [125]) ++ [10])
      with (a ++ 123 :: (body ++ [125]) ++ [10])
      by (unfold a; by rewrite <- !app_assoc).
    by rewrite find_from_fresh. }
  assert (Hrfind :
    rfind (f0 ++ entity_name ++ f1 ++ ([123] ++ body ++ [125]) ++ [10]) [125]
    = (Z.of_nat (length a) + 1 + Z.of_nat (length body))%Z).
  { unfold rfind.
    replace (f0 ++ entity_name ++ f1 ++ ([123] ++ body ++ [125]) ++ [10])
      with ((a ++ 123 :: body) ++ 125 :: [10])
      by (unfold a; simpl; by rewrite <- !app_assoc).
    rewrite rfind_from_fresh; [| lia |].
    - rewrite length_app. simpl length. lia.
    - rewrite elem_of_cons, elem_of_nil. by intros [? | ?]. }
  rewrite Hfind, Hrfind.
  replace (f0 ++ entity_name ++ f1 ++ ([123] ++ body ++ [125]) ++ [10])
    with (a ++ ([123] ++ body ++ [125]) ++ [10])
    by (unfold a; by rewrite <- !app_assoc).
  replace (Z.of_nat (length a) + 1 + Z.of_nat (length body) + 1)%Z
    with (Z.of_nat (length a)
          + Z.of_nat (length ([123%N] ++ body ++ [125%N])))%Z.
  - apply slice_middle.
  - rewrite !length_app. simpl length. lia.
Qed.

End Backend.

(** ** Labels that differ in separators *)

Section CanonicalizerFacts.
Context `{Runtime}.

Lemma remove_special_separator (a b : pystr) (c : N) :
  is_special c = true →
  remove_special (a ++ c :: b) = remove_special (a ++ b).
Proof.
  intros Hc. unfold remove_special.
  rewrite !filter_app, filter_cons_False; [done |].
  by rewrite Hc.
Qed.

(** A hyphen or a middle dot anywhere in a label does not reach the
    identifier: the label with the character and the label without it
    get the same identifier, whatever the transliteration and the
    capitalisation do. *)
Theorem standardize_entity_id_ignores_separators (a b : pystr) (c : N) :
  is_special c = true →
  standardize_entity_id (a ++ c :: b) = standardize_entity_id (a ++ b).
Proof.
  intros Hc. unfold standardize_entity_id. cbv zeta.
  by rewrite remove_special_separator.
Qed.

End CanonicalizerFacts.

(** ** Runs of the further properties in the small world *)

#[local] Existing Instance Demo.runtime.

Ltac at_index n := apply list_elem_of_lookup; exists n; vm_compute; reflexivity.

Lemma process_entity_persists_only_validated_witness :
  let run :=
    @process_entity Demo.runtime
      (Demo.world Demo.roster3 (utf8 "text") [] true)
      (utf8 "重力坝") Demo.roster3 [] in
  EvPrint MsgValidationSuccessful ∈ run.1.
Proof.
  intros run.
  destruct (@process_entity_persists_only_validated Demo.runtime
              (Demo.world Demo.roster3 (utf8 "text") [] true)
              (utf8 "重力坝") Demo.roster3 [] run.1 run.2)
    as (Hvalid & _).
  - apply surjective_pairing.
  - apply Exists_exists.
    exists (EvOpen (utf8 "output/unknown_entity.json") (Ok tt)).
    split; [at_index 16%nat | exact I].
  - exact Hvalid.
Defined.

Lemma process_entity_dumps_correction_output_witness :
  let run :=
    @process_entity Demo.runtime
      (Demo.world Demo.roster3 (utf8 "text") [] true)
      (utf8 "重力坝") Demo.roster3 [] in
  ∃ record response,
    EvLlm (FINAL_VALIDATION_PROMPT (utf8 "重力坝")
             (json_dumps (Some 2%nat) (PDict record))) (Ok response) ∈ run.1
    ∧ json_loads response = Ok (PDict ∅)
    ∧ is_dict (PDict ∅) = true
    ∧ (validate_schema record).2 = true.
Proof.
  intros run.
  apply (@process_entity_dumps_correction_output Demo.runtime
           (Demo.world Demo.roster3 (utf8 "text") [] true)
           (utf8 "重力坝") Demo.roster3 [] run.1 run.2
           (utf8 "output/unknown_entity.json") (PDict ∅) (Ok tt)).
  - apply surjective_pairing.
  - at_index 17%nat.
Defined.

Lemma process_entity_stage_order_witness :
  let run :=
    @process_entity Demo.runtime
      (Demo.world Demo.roster3 (utf8 "text") [] true)
      (utf8 "重力坝") Demo.roster3 [] in
  map prompt_stage (llm_prompts run.1) = seq 1 (length (llm_prompts run.1)).
Proof.
  intros run.
  apply (@process_entity_stage_order Demo.runtime
           (Demo.world Demo.roster3 (utf8 "text") [] true)
           (utf8 "重力坝") Demo.roster3 [] run.1 run.2).
  apply surjective_pairing.
Defined.



Lemma process_entity_attribute_prompt_type_witness :
  let run :=
    @process_entity Demo.runtime
      (Demo.world Demo.roster3 (utf8 "text") [] true)
      (utf8 "重力坝") Demo.roster3 [] in
  ∃ raw_text response info entity_type,
    EvLlm (TYPING_AND_DEFINITION_PROMPT (utf8 "重力坝") raw_text)
      (Ok response) ∈ run.1
    ∧ json_loads response = Ok (PDict info)
    ∧ dict_get info (utf8 "entity_type") (PDict ∅) = PDict entity_type
    ∧ PStr (utf8 "Unknown")
      = dict_get entity_type (utf8 "sub_type") (PStr (utf8 "Unknown")).
Proof.
  intros run.
  apply (@process_entity_attribute_prompt_type Demo.runtime
           (Demo.world Demo.roster3 (utf8 "text") [] true)
           (utf8 "重力坝") Demo.roster3 [] run.1 run.2
           (PStr (utf8 "Unknown")) (Ok (utf8 "{}"))).
  - apply surjective_pairing.
  - at_index 6%nat.
Defined.

Lemma process_entity_final_prompt_record_witness :
  let run :=
    @process_entity Demo.runtime
      (Demo.world Demo.roster3 (utf8 "text") [] true)
      (utf8 "重力坝") Demo.roster3 [] in
  ∃ record,
    utf8 "{}" = json_dumps (Some 2%nat) (PDict record)
    ∧ (validate_schema record).2 = true
    ∧ record !! utf8 "label" = Some (PStr (utf8 "重力坝")).
Proof.
  intros run.
  destruct (@process_entity_final_prompt_record Demo.runtime
              (Demo.world Demo.roster3 (utf8 "text") [] true)
              (utf8 "重力坝") Demo.roster3 [] run.1 run.2
              (utf8 "{}") (Ok (utf8 "{}")))
    as (record & Hjson & Hvalid & Hlabel & _).
  - apply surjective_pairing.
  - at_index 13%nat.
  - by exists record.
Defined.

Lemma main_stops_on_empty_roster_witness :
  let run :=
    @main Demo.runtime (Demo.world [] (utf8 "text") [] true) [] in
  run.2 = Ok tt ∧ last run.1 = Some (EvPrint MsgNoEntities).
Proof.
  intros run.
  destruct (@main_stops_on_empty_roster Demo.runtime
              (Demo.world [] (utf8 "text") [] true) [] run.1 run.2)
    as (Hr & Hlast & _).
  - apply surjective_pairing.
  - left. at_index 4%nat.
  - by split.
Defined.

Lemma main_relation_prompt_lists_whole_roster_witness :
  utf8 "[]" = json_dumps None (PList (map PStr Demo.roster3)).
Proof.
  pose (run := @main Demo.runtime
                 (Demo.world Demo.roster3 (utf8 "text") [] true) []).
  apply (@main_relation_prompt_lists_whole_roster Demo.runtime
           (Demo.world Demo.roster3 (utf8 "text") [] true) [] run.1 run.2
           Demo.roster3 (utf8 "重力坝") (utf8 "[]") (Ok (utf8 "[]"))).
  - apply surjective_pairing.
  - at_index 4%nat.
  - at_index 15%nat.
Defined.

Lemma standardize_entity_id_ignores_separators_witness :
  standardize_entity_id (utf8 "重力" ++ 0x2D :: utf8 "坝")
  = standardize_entity_id (utf8 "重力" ++ utf8 "坝").
Proof.
  apply standardize_entity_id_ignores_separators. reflexivity.
Defined.

Lemma get_llm_response_routes_by_stage_witness :
  ∃ text,
    prompt_text
      (TYPING_AND_DEFINITION_PROMPT (utf8 "重力坝") (utf8 "A gravity dam."))
    = Ok text
    ∧ (@llm_api_module.get_llm_response demo_json_default text).2
      = utf8 "{}".
Proof.
  eexists. split; [apply typing_text |].
  apply (@get_llm_response_routes_by_stage Demo.runtime demo_json_default
           (TYPING_AND_DEFINITION_PROMPT (utf8 "重力坝")
              (utf8 "A gravity dam."))
           _ llm_api_module.TYPING).
  - apply typing_text.
  - vm_compute. reflexivity.
  - reflexivity.
Defined.

Lemma get_llm_response_query_phrase_wins_witness :
  ∃ text,
    prompt_text
      (TYPING_AND_DEFINITION_PROMPT (utf8 "重力坝")
         (utf8 "How to generate 5 specific and technical search engine queries"))
    = Ok text
    ∧ (@llm_api_module.get_llm_response demo_json_default text).2
      = utf8 "[]".
Proof.
  eexists. split; [apply typing_text |].
  apply (@get_llm_response_query_phrase_wins Demo.runtime demo_json_default
           (TYPING_AND_DEFINITION_PROMPT (utf8 "重力坝")
              (utf8 "How to generate 5 specific and technical search engine queries"))
           (utf8 "How to generate 5 specific and technical search engine queries")).
  - apply typing_text.
  - at_index 1%nat.
  - vm_compute. reflexivity.
Defined.

Lemma get_llm_response_echoes_record_witness :
  ∃ text,
    prompt_text
      (FINAL_VALIDATION_PROMPT (utf8 "重力坝") (braced (utf8 "'aliases': []")))
    = Ok text
    ∧ (@llm_api_module.get_llm_response demo_json_default text).2
      = utf8 "{'aliases': []}".
Proof.
  eexists. split; [apply final_text |].
  apply (@get_llm_response_echoes_record Demo.runtime demo_json_default
           (utf8 "重力坝") (utf8 "'aliases': []")).
  - apply final_text.
  - repeat split; vm_compute; reflexivity.
  - apply fresh_check. vm_compute. reflexivity.
Defined.
